(** * electron-dl: the download listener and its byte counters

    A shallow embedding of [index.js] (registerListener, its will-download
    listener with the per-item 'updated' and 'done' handlers,
    getFilenameFromMime and download) and the properties of its
    specification.

    Conventions of the embedding.
    - Byte counts are JavaScript numbers holding integers; they are modelled
      as [Z] (additions of integers are exact on doubles below 2^53).  A
      division is never evaluated: its result is the symbolic value
      [Quot n d], so nothing is claimed about floating-point rounding.
    - The closure variables of one registerListener call (downloadItems,
      receivedBytes, completedBytes, totalBytes, options) and the handlers it
      installed are the fields of [Registration].
    - Every call into Electron, into the user's callbacks or into the
      completion callback is recorded, in program order, as an [Effect].
    - [window_.isDestroyed()] on a null [window_] raises a TypeError; a
      computation that raised returns [None] and keeps the state and the
      effects it produced before. *)

From Stdlib Require Import ZArith List Ascii String Bool Lia ListSet Permutation.
Import ListNotations.
Local Open Scope string_scope.
Local Open Scope list_scope.
Local Open Scope Z_scope.

(** ** Data model *)

Definition Item := nat.
Definition Win := nat.
Definition JSFun := nat.

(** The terminal state tag passed to a 'done' handler. *)
Inductive DoneState := completed | cancelled | interrupted.

(** A JavaScript number as the program produces it: an integer, or the
    result of the division [n / d] (NaN or an infinity when [d] is 0). *)
Inductive JSNumber :=
| Int (z : Z)
| Quot (n d : Z).

Record Error := { message : string }.

Record WebContents := {
  wc_id : nat;
  getType : string;
  hostWebContents : option nat
}.

Record Webview := {
  wv_item : Item;
  wv_webContents : WebContents
}.

(** The options object (the interface [Options] of index.d.ts, plus the
    internal flag unregisterWhenDone); [None] is an absent key. *)
Record Options := {
  saveAs : option bool;
  directory : option string;
  filename : option string;
  errorTitle : option string;
  errorMessage : option string;
  onStarted : option JSFun;
  onProgress : option JSFun;
  onCancel : option JSFun;
  openFolderWhenDone : option bool;
  showBadge : option bool;
  unregisterWhenDone : option bool;
  webview : option Webview
}.

Module Progress.
(** The argument of onProgress. *)
Record t := {
  percent : JSNumber;
  transferredBytes : Z;
  totalBytes : Z
}.
End Progress.

(** What the host answers when the program asks: the download items'
    getters, the window lookup, the platform and the file system. *)
Record Host := {
  getTotalBytes : Item -> Z;
  getReceivedBytes : Item -> Z;
  getFilename : Item -> string;
  getMimeType : Item -> string;
  fromWebContents : option nat -> option Win;
  isDestroyed : Win -> bool;
  platform : string;
  app_getPath_downloads : string;
  unusedFilename_sync : string -> string
}.

(** One entry of the array returned by [extName.mime]. *)
Record ExtEntry := { ext : string; ext_mime : string }.

Inductive Effect :=
| item_setSavePath (item : Item) (filePath : string)
| call_onStarted (f : JSFun) (item : Item)
| app_badgeCount (n : nat)
| window_setProgressBar (w : Win) (v : JSNumber)
| call_onProgress (f : JSFun) (p : Progress.t)
| session_on
| session_removeListener
| call_onCancel (f : JSFun) (item : Item)
| dialog_showErrorBox (title content : string)
| call_callback (error : option Error) (item : option Item)
| app_dock_downloadFinished (filePath : string)
| shell_showItemInFolder (fullPath : string).

(** The variables a listener run leaves in the closures of the two
    handlers it installs on its item. *)
Record Closure := {
  c_item : Item;
  window_ : option Win;
  c_directory : string;
  filePath : string;
  c_errorMessage : string;
  c_errorTitle : string
}.

Record Registration := {
  options : Options;
  downloadItems : list Item;
  receivedBytes : Z;
  completedBytes : Z;
  totalBytes : Z;
  listening : bool;
  handlers : list Closure
}.

Definition set_downloadItems (l : list Item) (s : Registration) : Registration :=
  {| options := options s; downloadItems := l;
     receivedBytes := receivedBytes s; completedBytes := completedBytes s;
     totalBytes := totalBytes s; listening := listening s;
     handlers := handlers s |}.

Definition set_receivedBytes (n : Z) (s : Registration) : Registration :=
  {| options := options s; downloadItems := downloadItems s;
     receivedBytes := n; completedBytes := completedBytes s;
     totalBytes := totalBytes s; listening := listening s;
     handlers := handlers s |}.

Definition set_completedBytes (n : Z) (s : Registration) : Registration :=
  {| options := options s; downloadItems := downloadItems s;
     receivedBytes := receivedBytes s; completedBytes := n;
     totalBytes := totalBytes s; listening := listening s;
     handlers := handlers s |}.

Definition set_totalBytes (n : Z) (s : Registration) : Registration :=
  {| options := options s; downloadItems := downloadItems s;
     receivedBytes := receivedBytes s; completedBytes := completedBytes s;
     totalBytes := n; listening := listening s;
     handlers := handlers s |}.

Definition set_listening (b : bool) (s : Registration) : Registration :=
  {| options := options s; downloadItems := downloadItems s;
     receivedBytes := receivedBytes s; completedBytes := completedBytes s;
     totalBytes := totalBytes s; listening := b;
     handlers := handlers s |}.

Definition set_handlers (l : list Closure) (s : Registration) : Registration :=
  {| options := options s; downloadItems := downloadItems s;
     receivedBytes := receivedBytes s; completedBytes := completedBytes s;
     totalBytes := totalBytes s; listening := listening s;
     handlers := l |}.

(** JavaScript truthiness of the option fields. *)
Definition truthy_bool (b : option bool) : bool :=
  match b with Some true => true | _ => false end.

Definition truthy_string (s : string) : bool :=
  negb (s =? "")%string.

Definition truthy_str (s : option string) : bool :=
  match s with Some x => truthy_string x | None => false end.

(** [a || d] on an optional string. *)
Definition or_else (a : option string) (d : string) : string :=
  match a with
  | Some x => if truthy_string x then x else d
  | None => d
  end.

(** [new Set()]: insertion-ordered, without duplicates. *)
Definition Set_add (x : Item) (l : list Item) : list Item := set_add Nat.eq_dec x l.
Definition Set_delete (x : Item) (l : list Item) : list Item := set_remove Nat.eq_dec x l.

(** ** A state, trace and exception monad for the handlers *)

Definition M (A : Type) : Type :=
  Registration -> Registration * list Effect * option A.

Definition ret {A} (a : A) : M A := fun s => (s, [], Some a).

Definition bind {A B} (m : M A) (f : A -> M B) : M B :=
  fun s =>
    match m s with
    | (s1, fx1, None) => (s1, fx1, None)
    | (s1, fx1, Some a) =>
        match f a s1 with
        | (s2, fx2, r) => (s2, fx1 ++ fx2, r)
        end
    end.

Definition get : M Registration := fun s => (s, [], Some s).
Definition modify (f : Registration -> Registration) : M unit :=
  fun s => (f s, [], Some tt).
Definition emit (e : Effect) : M unit := fun s => (s, [e], Some tt).
Definition throwTypeError {A} : M A := fun s => (s, [], None).
Definition when (b : bool) (m : M unit) : M unit := if b then m else ret tt.

Declare Scope js_scope.
Delimit Scope js_scope with js.
Notation "x <- m ;; k" := (bind m (fun x => k))
  (at level 61, m at next level, right associativity) : js_scope.
Notation "m ;; k" := (bind m (fun _ => k))
  (at level 61, right associativity) : js_scope.
Local Open Scope js_scope.

Definition state_of {A} (r : Registration * list Effect * option A) : Registration :=
  fst (fst r).
Definition effects_of {A} (r : Registration * list Effect * option A) : list Effect :=
  snd (fst r).
Definition threw {A} (r : Registration * list Effect * option A) : bool :=
  match snd r with None => true | Some _ => false end.

(** ** Events delivered by the host *)

Inductive Event :=
| will_download (item : Item) (webContents : WebContents)
| updated (item : Item)
| done (item : Item) (state : DoneState).

(** ** The program *)

Section Program.

(** The npm and Node functions the program calls. *)
Variable path_join : string -> string -> string.
Variable path_extname : string -> string.
Variable extName_mime : string -> list ExtEntry.
Variable pupa : string -> string -> string.

Definition getFilenameFromMime (name mime : string) : string :=
  let extensions := extName_mime mime in
  match extensions with
  | [e] => (name ++ "." ++ ext e)%string
  | _ => name
  end.

Definition activeDownloadItems (s : Registration) : nat :=
  List.length (downloadItems s).

Definition progressDownloadItems (s : Registration) : JSNumber :=
  Quot (receivedBytes s) (totalBytes s).

(** [options.showBadge && ['darwin', 'linux'].includes(process.platform)] *)
Definition badge_enabled (h : Host) (o : Options) : bool :=
  truthy_bool (showBadge o) &&
  existsb (String.eqb (platform h)) ["darwin"; "linux"].

(** [window_.isDestroyed()], a TypeError when [window_] is null. *)
Definition window_isDestroyed (h : Host) (c : Closure) : M bool :=
  match window_ c with
  | Some w => ret (isDestroyed h w)
  | None => throwTypeError
  end.

Definition window_setProgress (c : Closure) (v : JSNumber) : M unit :=
  match window_ c with
  | Some w => emit (window_setProgressBar w v)
  | None => throwTypeError
  end.

(** The name the listener saves under when no filename option is given:
    [path.extname(filename) ? filename : getFilenameFromMime(...)]. *)
Definition save_name (fname mime : string) : string :=
  if truthy_string (path_extname fname) then fname
  else getFilenameFromMime fname mime.

Definition updated_handler (h : Host) (c : Closure) : M unit :=
  modify (fun s =>
    set_receivedBytes
      (fold_left (fun receivedBytes item => receivedBytes + getReceivedBytes h item)
                 (downloadItems s) (completedBytes s)) s) ;;
  s <- get ;;
  when (badge_enabled h (options s))
       (emit (app_badgeCount (activeDownloadItems s))) ;;
  destroyed <- window_isDestroyed h c ;;
  when (negb destroyed)
       (window_setProgress c (progressDownloadItems s)) ;;
  match onProgress (options s) with
  | Some f =>
      let itemTransferredBytes := getReceivedBytes h (c_item c) in
      let itemTotalBytes := getTotalBytes h (c_item c) in
      emit (call_onProgress f
        {| Progress.percent :=
             if itemTotalBytes =? 0 then Int 0
             else Quot itemTransferredBytes itemTotalBytes;
           Progress.transferredBytes := itemTransferredBytes;
           Progress.totalBytes := itemTotalBytes |})
  | None => ret tt
  end.

Definition done_handler (h : Host) (state : DoneState) (c : Closure) : M unit :=
  modify (fun s => set_completedBytes (completedBytes s + getTotalBytes h (c_item c)) s) ;;
  modify (fun s => set_downloadItems (Set_delete (c_item c) (downloadItems s)) s) ;;
  s <- get ;;
  when (badge_enabled h (options s))
       (emit (app_badgeCount (activeDownloadItems s))) ;;
  destroyed <- window_isDestroyed h c ;;
  when (negb destroyed && (activeDownloadItems s =? 0)%nat)
       (window_setProgress c (Int (-1)) ;;
        modify (set_receivedBytes 0) ;;
        modify (set_completedBytes 0) ;;
        modify (set_totalBytes 0)) ;;
  when (truthy_bool (unregisterWhenDone (options s)) &&
        match webview (options s) with Some _ => false | None => true end)
       (emit session_removeListener ;; modify (set_listening false)) ;;
  match state with
  | cancelled =>
      match onCancel (options s) with
      | Some f => emit (call_onCancel f (c_item c))
      | None => ret tt
      end
  | interrupted =>
      let message := pupa (c_errorMessage c) (getFilename h (c_item c)) in
      emit (dialog_showErrorBox (c_errorTitle c) message) ;;
      emit (call_callback (Some {| message := message |}) None)
  | completed =>
      when (platform h =? "darwin")%string
           (emit (app_dock_downloadFinished (filePath c))) ;;
      when (truthy_bool (openFolderWhenDone (options s)))
           (emit (shell_showItemInFolder
                    (path_join (c_directory c) (getFilename h (c_item c))))) ;;
      emit (call_callback None (Some (c_item c)))
  end.

(** Lines 35 to 40 of the listener: the window of the web contents, looked
    up through hostWebContents for a webview. *)
Definition owner_window (h : Host) (webContents : WebContents) : option Win :=
  let hostWebContents' :=
    if (getType webContents =? "webview")%string
    then hostWebContents webContents
    else Some (wc_id webContents) in
  fromWebContents h hostWebContents'.

(** Lines 35 to 53 of the listener: the constants its handlers close
    over. *)
Definition closure_for (h : Host) (o : Options) (item : Item)
           (webContents : WebContents) : Closure :=
  let window_ := owner_window h webContents in
  let directory := or_else (directory o) (app_getPath_downloads h) in
  let unused :=
    let filename := getFilename h item in
    let name := save_name filename (getMimeType h item) in
    unusedFilename_sync h (path_join directory name) in
  let filePath :=
    match filename o with
    | Some f => if truthy_string f then path_join directory f else unused
    | None => unused
    end in
  let errorMessage :=
    or_else (errorMessage o) "The download of {filename} was interrupted" in
  let errorTitle := or_else (errorTitle o) "Download Error" in
  {| c_item := item; window_ := window_; c_directory := directory;
     filePath := filePath; c_errorMessage := errorMessage;
     c_errorTitle := errorTitle |}.

Definition listener (h : Host) (item : Item) (webContents : WebContents) : M unit :=
  modify (fun s => set_downloadItems (Set_add item (downloadItems s)) s) ;;
  modify (fun s => set_totalBytes (totalBytes s + getTotalBytes h item) s) ;;
  s <- get ;;
  let o := options s in
  let c := closure_for h o item webContents in
  when (negb (truthy_bool (saveAs o))) (emit (item_setSavePath item (filePath c))) ;;
  match onStarted o with
  | Some f => emit (call_onStarted f item)
  | None => ret tt
  end ;;
  (* item.on('updated', ...); item.on('done', ...) *)
  modify (fun s => set_handlers (handlers s ++ [c]) s).

(** [options = {showBadge: true, ...options}] *)
Definition resolve_options (o : Options) : Options :=
  {| saveAs := saveAs o; directory := directory o; filename := filename o;
     errorTitle := errorTitle o; errorMessage := errorMessage o;
     onStarted := onStarted o; onProgress := onProgress o;
     onCancel := onCancel o; openFolderWhenDone := openFolderWhenDone o;
     showBadge := match showBadge o with Some b => Some b | None => Some true end;
     unregisterWhenDone := unregisterWhenDone o; webview := webview o |}.

(** The closure variables as registerListener initialises them. *)
Definition fresh (o : Options) : Registration :=
  {| options := o; downloadItems := []; receivedBytes := 0;
     completedBytes := 0; totalBytes := 0; listening := false;
     handlers := [] |}.

Definition registerListener (h : Host) (o : Options)
  : Registration * list Effect * option unit :=
  let options := resolve_options o in
  match webview options with
  | Some wv => listener h (wv_item wv) (wv_webContents wv) (fresh options)
  | None => (emit session_on ;; modify (set_listening true)) (fresh options)
  end.

(** [emitter.emit]: the listeners run in the order they were added; an
    exception leaves through emit and the later ones do not run. *)
Fixpoint run_handlers (f : Closure -> M unit) (cs : list Closure) : M unit :=
  match cs with
  | [] => ret tt
  | c :: cs' => f c ;; run_handlers f cs'
  end.

Definition handlers_of (item : Item) (s : Registration) : list Closure :=
  filter (fun c => (c_item c =? item)%nat) (handlers s).

Definition deliver (h : Host) (e : Event) : M unit :=
  match e with
  | will_download item webContents =>
      s <- get ;;
      if listening s then listener h item webContents else ret tt
  | updated item =>
      s <- get ;;
      run_handlers (updated_handler h) (handlers_of item s)
  | done item state =>
      s <- get ;;
      run_handlers (done_handler h state) (handlers_of item s)
  end.

(** The host's event loop: each event is dispatched on its own, with the
    host as it is at that moment; an exception ends that event only. *)
Fixpoint run (tr : list (Host * Event)) (s : Registration)
  : Registration * list Effect :=
  match tr with
  | [] => (s, [])
  | (h, e) :: tr' =>
      match deliver h e s with
      | (s1, fx1, _) =>
          match run tr' s1 with
          | (s2, fx2) => (s2, fx1 ++ fx2)
          end
      end
  end.

(** ** download *)

(** [{...options, unregisterWhenDone: true}] *)
Definition download_options (o : Options) : Options :=
  {| saveAs := saveAs o; directory := directory o; filename := filename o;
     errorTitle := errorTitle o; errorMessage := errorMessage o;
     onStarted := onStarted o; onProgress := onProgress o;
     onCancel := onCancel o; openFolderWhenDone := openFolderWhenDone o;
     showBadge := showBadge o;
     unregisterWhenDone := Some true; webview := webview o |}.

(** The promise of download; resolve and reject do nothing once it is
    settled. *)
Inductive Promise :=
| pending
| resolved (item : option Item)
| rejected (e : Error).

Definition resolve (item : option Item) (p : Promise) : Promise :=
  match p with pending => resolved item | _ => p end.

Definition reject (e : Error) (p : Promise) : Promise :=
  match p with pending => rejected e | _ => p end.

(** The callback download hands to registerListener. *)
Definition download_callback (error : option Error) (item : option Item)
           (p : Promise) : Promise :=
  match error with
  | Some e => reject e p
  | None => resolve item p
  end.

(** The promise after the registration made these calls. *)
Definition settle (p : Promise) (e : Effect) : Promise :=
  match e with
  | call_callback error item => download_callback error item p
  | _ => p
  end.

Definition promise_after (fx : list Effect) (p : Promise) : Promise :=
  fold_left settle fx p.

(** The first argument of download: a BrowserWindow (it has webContents),
    a webview tag (with or without a session for its partition), or
    neither. *)
Inductive Target :=
| browserWindow
| webviewTag (partition : string) (fromPartition : bool)
| neither.

(** What the executor of download's promise did. *)
Inductive Started :=
| registered (r : Registration * list Effect * option unit) (downloadURL : string)
| ipc_sent (o : Options) (url partition : string)
| rejected_at_once (e : Error).

Definition download (h : Host) (window_ : Target) (url : string) (o : Options)
  : Started :=
  let options := download_options o in
  match window_ with
  | browserWindow => registered (registerListener h options) url
  | webviewTag partition true => ipc_sent options url partition
  | webviewTag _ false =>
      rejected_at_once
        {| message := "Can't find partition attribute for webview. More details: https://www.electronjs.org/docs/api/webview-tag#partition" |}
  | neither =>
      rejected_at_once {| message := "Can't find webContents for selected window" |}
  end.

End Program.

(** ** Concrete stand-ins for the library functions and a concrete host,
    to run the program on examples *)

Module Demo.

Definition path_join (d n : string) : string := (d ++ "/" ++ n)%string.

Fixpoint from_last_dot (s : string) : option string :=
  match s with
  | EmptyString => None
  | String c r =>
      match from_last_dot r with
      | Some e => Some e
      | None => if Ascii.eqb c "."%char then Some s else None
      end
  end.

(** Agrees with Node's path.extname on plain names such as "report" and
    "report.pdf". *)
Definition path_extname (s : string) : string :=
  match from_last_dot s with Some e => e | None => "" end.

Definition extName_mime (mime : string) : list ExtEntry :=
  if (mime =? "application/pdf")%string
  then [{| ext := "pdf"; ext_mime := mime |}]
  else if (mime =? "image/jpeg")%string
  then [{| ext := "jpe"; ext_mime := mime |};
        {| ext := "jpeg"; ext_mime := mime |};
        {| ext := "jpg"; ext_mime := mime |}]
  else [].

(** Replaces every "{filename}" of the template. *)
Fixpoint pupa_from (skip : nat) (template fname : string) : string :=
  match template with
  | EmptyString => EmptyString
  | String c r =>
      match skip with
      | S k => pupa_from k r fname
      | O =>
          if String.prefix "{filename}" template
          then (fname ++ pupa_from 9 r fname)%string
          else String c (pupa_from 0 r fname)
      end
  end.

Definition pupa (template fname : string) : string := pupa_from 0 template fname.

(** Items 1 and 2 of 100 and 50 bytes; web contents 1 belongs to window 7,
    web contents 2 to window 8, every other one to no window. *)
Definition host (received : Item -> Z) (destroyed : Win -> bool)
           (platform : string) : Host :=
  {| getTotalBytes := fun i => match i with 1%nat => 100 | 2%nat => 50 | _ => 0 end;
     getReceivedBytes := received;
     getFilename := fun i => match i with 1%nat => "report" | _ => "file.zip" end;
     getMimeType := fun i => match i with 1%nat => "application/pdf" | _ => "application/zip" end;
     fromWebContents := fun w =>
       match w with Some 1%nat => Some 7%nat | Some 2%nat => Some 8%nat | _ => None end;
     isDestroyed := destroyed;
     platform := platform;
     app_getPath_downloads := "/home/u/Downloads";
     unusedFilename_sync := fun p => p |}.

Definition alive : Win -> bool := fun _ => false.
Definition gone : Win -> bool := fun _ => true.

Definition contents (n : nat) : WebContents :=
  {| wc_id := n; getType := "window"; hostWebContents := None |}.

Definition no_options : Options :=
  {| saveAs := None; directory := None; filename := None; errorTitle := None;
     errorMessage := None; onStarted := None; onProgress := None;
     onCancel := None; openFolderWhenDone := None; showBadge := None;
     unregisterWhenDone := None; webview := None |}.

Definition with_callbacks : Options :=
  {| saveAs := None; directory := None; filename := None; errorTitle := None;
     errorMessage := None; onStarted := Some 1%nat; onProgress := Some 2%nat;
     onCancel := Some 3%nat; openFolderWhenDone := Some true; showBadge := None;
     unregisterWhenDone := Some true; webview := None |}.

Definition registerListener := registerListener path_join path_extname extName_mime.
Definition closure_for := closure_for path_join path_extname extName_mime.
Definition listener := listener path_join path_extname extName_mime.
Definition done_handler := done_handler path_join pupa.
Definition deliver := deliver path_join path_extname extName_mime pupa.
Definition run := run path_join path_extname extName_mime pupa.

(** Item 1 has received 30 of its 100 bytes, item 2 nothing yet. *)
Definition received_30 (i : Item) : Z :=
  match i with 1%nat => 30 | _ => 0 end.

Definition linux : Host := host received_30 alive "linux".
Definition linux_gone : Host := host received_30 gone "linux".

(** A registration that has seen items 1 and 2 start in window 7. *)
Definition two_started : Registration :=
  fst (run [(linux, will_download 1%nat (contents 1));
            (linux, will_download 2%nat (contents 1))]
           (state_of (registerListener linux with_callbacks))).

(** A registration that has seen item 1 start in web contents 3, which no
    window owns. *)
Definition started_without_window : Registration :=
  fst (run [(linux, will_download 1%nat (contents 3))]
           (state_of (registerListener linux no_options))).

Definition with_filename : Options :=
  {| saveAs := None; directory := None; filename := Some "x.bin";
     errorTitle := None; errorMessage := None; onStarted := None;
     onProgress := None; onCancel := None; openFolderWhenDone := Some true;
     showBadge := None; unregisterWhenDone := None; webview := None |}.

End Demo.

(** ** Further concrete inputs *)

Module Scenario.

Definition win32 : Host := Demo.host Demo.received_30 Demo.alive "win32".
Definition darwin : Host := Demo.host Demo.received_30 Demo.alive "darwin".

(** The totals the hosts of [Demo] report. *)
Definition totals (i : Item) : Z := getTotalBytes Demo.linux i.

(** Items 1 and 2 start, item 1 ticks and is cancelled. *)
Definition events (h : Host) : list (Host * Event) :=
  [(h, will_download 1%nat (Demo.contents 1));
   (h, will_download 2%nat (Demo.contents 1));
   (h, updated 1%nat);
   (h, done 1%nat cancelled)].

Definition with_saveAs : Options :=
  {| saveAs := Some true; directory := None; filename := None;
     errorTitle := None; errorMessage := None; onStarted := Some 1%nat;
     onProgress := None; onCancel := None; openFolderWhenDone := None;
     showBadge := None; unregisterWhenDone := None; webview := None |}.

Definition with_webview : Options :=
  {| saveAs := None; directory := None; filename := None;
     errorTitle := None; errorMessage := None; onStarted := None;
     onProgress := None; onCancel := None; openFolderWhenDone := None;
     showBadge := None; unregisterWhenDone := Some true;
     webview := Some {| wv_item := 1%nat; wv_webContents := Demo.contents 1 |} |}.

Definition with_empty_strings : Options :=
  {| saveAs := None; directory := Some ""; filename := Some "";
     errorTitle := Some ""; errorMessage := Some ""; onStarted := None;
     onProgress := None; onCancel := None; openFolderWhenDone := None;
     showBadge := None; unregisterWhenDone := None; webview := None |}.

(** A registration with callbacks and unregisterWhenDone that has seen
    item 1 start in web contents 3, which no window owns. *)
Definition tracked_without_window : Registration :=
  fst (Demo.run [(Demo.linux, will_download 1%nat (Demo.contents 3))]
                (state_of (Demo.registerListener Demo.linux Demo.with_callbacks))).

End Scenario.

(** ** Notions used to state the properties *)

Definition sum_received (h : Host) (l : list Item) : Z :=
  fold_right (fun item acc => getReceivedBytes h item + acc) 0 l.

(** The equation of the ByteCounters invariant. *)
Definition ByteCounters_eq (h : Host) (s : Registration) : Prop :=
  receivedBytes s = completedBytes s + sum_received h (downloadItems s).

Definition counters_zero (s : Registration) : Prop :=
  receivedBytes s = 0 /\ completedBytes s = 0 /\ totalBytes s = 0.

Definition is_callback (e : Effect) : bool :=
  match e with call_callback _ _ => true | _ => false end.

Definition is_showErrorBox (e : Effect) : bool :=
  match e with dialog_showErrorBox _ _ => true | _ => false end.

Definition is_setProgressBar (e : Effect) : bool :=
  match e with window_setProgressBar _ _ => true | _ => false end.

Definition is_onProgress (e : Effect) : bool :=
  match e with call_onProgress _ _ => true | _ => false end.

Definition is_onCancel (e : Effect) : bool :=
  match e with call_onCancel _ _ => true | _ => false end.

Definition is_showItemInFolder (e : Effect) : bool :=
  match e with shell_showItemInFolder _ => true | _ => false end.

(** The calls only a listener run makes. *)
Definition is_listener_call (e : Effect) : bool :=
  match e with
  | item_setSavePath _ _ | call_onStarted _ _ => true
  | _ => false
  end.

(** None of the calls in [fx] is of the kind [k]. *)
Definition none_of (k : Effect -> bool) (fx : list Effect) : Prop :=
  forallb (fun e => negb (k e)) fx = true.

(** The payload the 'updated' handler of [item] builds. *)
Definition progress_of (h : Host) (item : Item) : Progress.t :=
  {| Progress.percent :=
       if getTotalBytes h item =? 0 then Int 0
       else Quot (getReceivedBytes h item) (getTotalBytes h item);
     Progress.transferredBytes := getReceivedBytes h item;
     Progress.totalBytes := getTotalBytes h item |}.

(** The state a 'done' handler of [c] reaches before it looks at its
    window: the item's total counted as completed, the item out of the set. *)
Definition after_eviction (h : Host) (c : Closure) (s : Registration) : Registration :=
  set_downloadItems (Set_delete (c_item c) (downloadItems s))
    (set_completedBytes (completedBytes s + getTotalBytes h (c_item c)) s).

Definition reset_counters (s : Registration) : Registration :=
  set_totalBytes 0 (set_completedBytes 0 (set_receivedBytes 0 s)).

(** [options.unregisterWhenDone && !options.webview] *)
Definition unregisters (o : Options) : bool :=
  truthy_bool (unregisterWhenDone o) &&
  match webview o with Some _ => false | None => true end.

(** The calls of the last part of the 'done' handler, by terminal state. *)
Definition dispatch (path_join pupa : string -> string -> string)
           (h : Host) (state : DoneState) (c : Closure) (o : Options)
  : list Effect :=
  match state with
  | cancelled =>
      match onCancel o with
      | Some f => [call_onCancel f (c_item c)]
      | None => []
      end
  | interrupted =>
      let message := pupa (c_errorMessage c) (getFilename h (c_item c)) in
      [dialog_showErrorBox (c_errorTitle c) message;
       call_callback (Some {| message := message |}) None]
  | completed =>
      (if (platform h =? "darwin")%string
       then [app_dock_downloadFinished (filePath c)] else [])
      ++ (if truthy_bool (openFolderWhenDone o)
          then [shell_showItemInFolder
                  (path_join (c_directory c) (getFilename h (c_item c)))]
          else [])
      ++ [call_callback None (Some (c_item c))]
  end.

(** Options and handlers fixed, the listener detached. *)
Definition detached (o : Options) (hs : list Closure) (s : Registration) : Prop :=
  options s = o /\ handlers s = hs /\ listening s = false.

Definition sum_total (h : Host) (l : list Item) : Z :=
  fold_right (fun item acc => getTotalBytes h item + acc) 0 l.

(** ** Notions for the properties of whole event sequences *)

Definition sum_of (f : Item -> Z) (l : list Item) : Z :=
  fold_right (fun item acc => f item + acc) 0 l.

Definition is_badgeCount (e : Effect) : bool :=
  match e with app_badgeCount _ => true | _ => false end.

Definition is_setSavePath (e : Effect) : bool :=
  match e with item_setSavePath _ _ => true | _ => false end.

Definition is_session_call (e : Effect) : bool :=
  match e with session_on | session_removeListener => true | _ => false end.

Definition is_dock_call (e : Effect) : bool :=
  match e with app_dock_downloadFinished _ => true | _ => false end.

(** The host delivers the events of an item in order: its start once,
    'updated' ticks at any time, and its 'done' once, after its start.
    [started] and [finished] are the items started and done so far. *)
Fixpoint well_formed (started finished : list Item) (tr : list (Host * Event))
  : Prop :=
  match tr with
  | [] => True
  | (_, will_download i _) :: tr' =>
      ~ In i started /\ well_formed (i :: started) finished tr'
  | (_, updated _) :: tr' => well_formed started finished tr'
  | (_, done i _) :: tr' =>
      In i started /\ ~ In i finished
      /\ well_formed started (i :: finished) tr'
  end.

(** The items whose 'done' is part of the sequence. *)
Fixpoint done_items (tr : list (Host * Event)) : list Item :=
  match tr with
  | [] => []
  | (_, done i _) :: tr' => i :: done_items tr'
  | _ :: tr' => done_items tr'
  end.

(** An 'updated' tick, of any item. *)
Definition is_tick (he : Host * Event) : bool :=
  match snd he with updated _ => true | _ => false end.

(** The totals of the items whose start is part of the sequence. *)
Fixpoint started_total (T : Item -> Z) (tr : list (Host * Event)) : Z :=
  match tr with
  | [] => 0
  | (_, will_download i _) :: tr' => T i + started_total T tr'
  | _ :: tr' => started_total T tr'
  end.

(** Every host of the sequence reports the total [T i] for item [i]. *)
Definition same_totals (T : Item -> Z) (tr : list (Host * Event)) : Prop :=
  forall h e, In (h, e) tr -> forall i, getTotalBytes h i = T i.

(** The item a registration has started before any event arrives. *)
Definition initially_started (o : Options) : list Item :=
  match webview o with
  | Some wv => [wv_item wv]
  | None => []
  end.

(** The set of a registration that has seen the items [started] start and
    the items [finished] finish: it holds, once each, the items with
    handlers that have not finished. *)
Definition Members (started finished : list Item) (s : Registration) : Prop :=
  incl finished started
  /\ incl (map c_item (handlers s)) started
  /\ NoDup (map c_item (handlers s))
  /\ NoDup (downloadItems s)
  /\ (forall i, In i (downloadItems s) <->
                In i (map c_item (handlers s)) /\ ~ In i finished).

(** totalBytes is completedBytes plus the totals of the items in the
    set. *)
Definition Counted (T : Item -> Z) (s : Registration) : Prop :=
  totalBytes s = completedBytes s + sum_of T (downloadItems s)
  /\ ((forall i, 0 <= T i) -> 0 <= completedBytes s).

(** The options with every empty string removed. *)
Definition drop_empty_string (a : option string) : option string :=
  match a with
  | Some x => if truthy_string x then Some x else None
  | None => None
  end.

Definition drop_empty (o : Options) : Options :=
  {| saveAs := saveAs o;
     directory := drop_empty_string (directory o);
     filename := drop_empty_string (filename o);
     errorTitle := drop_empty_string (errorTitle o);
     errorMessage := drop_empty_string (errorMessage o);
     onStarted := onStarted o; onProgress := onProgress o;
     onCancel := onCancel o; openFolderWhenDone := openFolderWhenDone o;
     showBadge := showBadge o; unregisterWhenDone := unregisterWhenDone o;
     webview := webview o |}.

Ltac run_monad :=
  cbv beta iota zeta delta
    [bind ret get modify emit when throwTypeError window_isDestroyed
     window_setProgress state_of effects_of threw fst snd].

(** ** Symbolic execution of the handlers *)

Lemma reduce_received (h : Host) (l : list Item) (z : Z) :
  fold_left (fun receivedBytes item => receivedBytes + getReceivedBytes h item) l z
  = z + sum_received h l.
Proof.
  revert z; induction l as [|x l IH]; intros z; simpl.
  - lia.
  - rewrite IH. lia.
Qed.

Lemma append_grows (a : string) (c : ascii) (b : string) :
  (a ++ String c b)%string <> a.
Proof.
  induction a as [|x a IH]; simpl.
  - discriminate.
  - intros H. injection H as H. exact (IH H).
Qed.

Lemma none_of_app (k : Effect -> bool) (l1 l2 : list Effect) :
  none_of k (l1 ++ l2) <-> none_of k l1 /\ none_of k l2.
Proof.
  unfold none_of. rewrite forallb_app. apply andb_true_iff.
Qed.

Section Handlers.

Variable path_join : string -> string -> string.
Variable path_extname : string -> string.
Variable extName_mime : string -> list ExtEntry.
Variable pupa : string -> string -> string.

Lemma updated_handler_run (h : Host) (c : Closure) (s : Registration) :
  let s1 := set_receivedBytes
              (completedBytes s + sum_received h (downloadItems s)) s in
  let badge := if badge_enabled h (options s)
               then [app_badgeCount (List.length (downloadItems s))] else [] in
  updated_handler h c s =
  match window_ c with
  | None => (s1, badge, None)
  | Some w =>
      (s1,
       badge
       ++ (if isDestroyed h w then []
           else [window_setProgressBar w (Quot (receivedBytes s1) (totalBytes s))])
       ++ match onProgress (options s) with
          | Some f => [call_onProgress f (progress_of h (c_item c))]
          | None => []
          end,
       Some tt)
  end.
Proof.
  unfold updated_handler, progress_of, activeDownloadItems, progressDownloadItems.
  run_monad. rewrite reduce_received. simpl.
  destruct (badge_enabled h (options s)); simpl;
    destruct (window_ c) as [w|]; simpl; try reflexivity;
    destruct (isDestroyed h w); simpl;
    destruct (onProgress (options s)); reflexivity.
Qed.

Lemma done_handler_run (h : Host) (state : DoneState) (c : Closure)
      (s : Registration) :
  let s1 := after_eviction h c s in
  let badge := if badge_enabled h (options s)
               then [app_badgeCount (List.length (downloadItems s1))] else [] in
  done_handler path_join pupa h state c s =
  match window_ c with
  | None => (s1, badge, None)
  | Some w =>
      let reset := negb (isDestroyed h w) && (List.length (downloadItems s1) =? 0)%nat in
      let s2 := if reset then reset_counters s1 else s1 in
      let s3 := if unregisters (options s) then set_listening false s2 else s2 in
      (s3,
       badge
       ++ (if reset then [window_setProgressBar w (Int (-1))] else [])
       ++ (if unregisters (options s) then [session_removeListener] else [])
       ++ dispatch path_join pupa h state c (options s),
       Some tt)
  end.
Proof.
  unfold done_handler, dispatch, after_eviction, reset_counters, unregisters,
    activeDownloadItems.
  run_monad. simpl.
  destruct (badge_enabled h (options s)); simpl;
    destruct (window_ c) as [w|]; simpl; try reflexivity;
    destruct (isDestroyed h w); simpl;
    destruct (List.length (Set_delete (c_item c) (downloadItems s)) =? 0)%nat; simpl;
    destruct (truthy_bool (unregisterWhenDone (options s))); simpl;
    destruct (webview (options s)); simpl;
    destruct state; simpl; try reflexivity;
    try (destruct (onCancel (options s)); reflexivity);
    destruct (platform h =? "darwin")%string; simpl;
    destruct (truthy_bool (openFolderWhenDone (options s))); reflexivity.
Qed.

Lemma listener_run (h : Host) (item : Item) (webContents : WebContents)
      (s : Registration) :
  let c := closure_for path_join path_extname extName_mime h (options s)
             item webContents in
  listener path_join path_extname extName_mime h item webContents s =
  (set_handlers (handlers s ++ [c])
     (set_totalBytes (totalBytes s + getTotalBytes h item)
        (set_downloadItems (Set_add item (downloadItems s)) s)),
   (if truthy_bool (saveAs (options s)) then []
    else [item_setSavePath item (filePath c)])
   ++ match onStarted (options s) with
      | Some f => [call_onStarted f item]
      | None => []
      end,
   Some tt).
Proof.
  unfold listener. run_monad. simpl.
  destruct (truthy_bool (saveAs (options s))); simpl;
    destruct (onStarted (options s)); reflexivity.
Qed.

Lemma run_handlers_cons (f : Closure -> M unit) (c : Closure)
      (cs : list Closure) (s : Registration) :
  run_handlers f (c :: cs) s =
  match f c s with
  | (s1, fx1, None) => (s1, fx1, None)
  | (s1, fx1, Some _) =>
      match run_handlers f cs s1 with
      | (s2, fx2, r) => (s2, fx1 ++ fx2, r)
      end
  end.
Proof. reflexivity. Qed.

Lemma run_app (tr1 tr2 : list (Host * Event)) (s : Registration) :
  run path_join path_extname extName_mime pupa (tr1 ++ tr2) s =
  match run path_join path_extname extName_mime pupa tr1 s with
  | (s1, fx1) =>
      match run path_join path_extname extName_mime pupa tr2 s1 with
      | (s2, fx2) => (s2, fx1 ++ fx2)
      end
  end.
Proof.
  revert s; induction tr1 as [|[h e] tr1 IH]; intros s; simpl.
  - destruct (run _ _ _ _ tr2 s); reflexivity.
  - destruct (deliver _ _ _ _ h e s) as [[s1 fx1] r].
    rewrite IH.
    destruct (run _ _ _ _ tr1 s1) as [s2 fx2].
    destruct (run _ _ _ _ tr2 s2) as [s3 fx3].
    rewrite app_assoc. reflexivity.
Qed.

(** *** The received-bytes equation *)

Lemma updated_handler_eq (h : Host) (c : Closure) (s : Registration) :
  ByteCounters_eq h (state_of (updated_handler h c s)).
Proof.
  rewrite updated_handler_run.
  destruct (window_ c); reflexivity.
Qed.

Lemma updated_handlers_keep_eq (h : Host) (cs : list Closure) :
  forall s, ByteCounters_eq h s ->
  ByteCounters_eq h (state_of (run_handlers (updated_handler h) cs s)).
Proof.
  induction cs as [|c cs IH]; intros s Hs.
  - exact Hs.
  - rewrite run_handlers_cons.
    pose proof (updated_handler_eq h c s) as H1.
    destruct (updated_handler h c s) as [[s1 fx1] [[]|]].
    + specialize (IH s1 H1).
      destruct (run_handlers (updated_handler h) cs s1) as [[s2 fx2] r].
      exact IH.
    + exact H1.
Qed.

Lemma updated_emit_eq (h : Host) (cs : list Closure) (s : Registration) :
  cs <> [] ->
  ByteCounters_eq h (state_of (run_handlers (updated_handler h) cs s)).
Proof.
  destruct cs as [|c cs]; [congruence|intros _].
  rewrite run_handlers_cons.
  pose proof (updated_handler_eq h c s) as H1.
  destruct (updated_handler h c s) as [[s1 fx1] [[]|]].
  - pose proof (updated_handlers_keep_eq h cs s1 H1) as H2.
    destruct (run_handlers (updated_handler h) cs s1) as [[s2 fx2] r].
    exact H2.
  - exact H1.
Qed.

Lemma deliver_updated_state (h : Host) (item : Item) (s : Registration) :
  state_of (deliver path_join path_extname extName_mime pupa h (updated item) s)
  = state_of (run_handlers (updated_handler h) (handlers_of item s) s).
Proof.
  unfold deliver. run_monad.
  destruct (run_handlers (updated_handler h) (handlers_of item s) s)
    as [[s1 fx1] r].
  reflexivity.
Qed.

(** C1 (as amended).  Every run of an 'updated' handler leaves
    receivedBytes equal to completedBytes plus the sum of
    getReceivedBytes() over the items in the set, whatever the state
    before and also when the handler goes on to throw; so does every
    'updated' event delivered to an item that has a handler, after any
    sequence of events.  The equation is restored by each 'updated' tick;
    the listener and the 'done' handler do not recompute receivedBytes. *)
Theorem updated_restores_ByteCounters_eq (h : Host) (s : Registration) :
  (forall c, ByteCounters_eq h (state_of (updated_handler h c s)))
  /\ (forall item, handlers_of item s <> [] ->
      ByteCounters_eq h
        (state_of (deliver path_join path_extname extName_mime pupa h
                           (updated item) s)))
  /\ (forall tr item,
      handlers_of item
        (fst (run path_join path_extname extName_mime pupa tr s)) <> [] ->
      ByteCounters_eq h
        (fst (run path_join path_extname extName_mime pupa
                  (tr ++ [(h, updated item)]) s))).
Proof.
  split; [|split].
  - intros c. apply updated_handler_eq.
  - intros item Hcs. rewrite deliver_updated_state.
    apply updated_emit_eq. exact Hcs.
  - intros tr item Hcs. rewrite run_app.
    destruct (run path_join path_extname extName_mime pupa tr s) as [s1 fx1].
    cbn [fst] in Hcs. cbn [run].
    pose proof (updated_emit_eq h (handlers_of item s1) s1 Hcs) as H.
    rewrite <- deliver_updated_state in H.
    destruct (deliver path_join path_extname extName_mime pupa h
                      (updated item) s1) as [[s2 fx2] r].
    exact H.
Qed.

(** *** The name to save under *)

(** C3.  For a suggested filename without an extension (path.extname
    gives the empty string), the name the listener saves under is the
    filename with "." and the extension appended when extName.mime
    returns exactly one entry, and the filename unchanged when it returns
    none or several; the name changes exactly when there is one entry.
    With no filename option, that name, joined to the directory and made
    unused, is the save path. *)
Theorem save_name_appends_unique_extension (name mime : string) :
  path_extname name = "" ->
  (forall e, extName_mime mime = [e] ->
     save_name path_extname extName_mime name mime
     = (name ++ "." ++ ext e)%string)
  /\ (List.length (extName_mime mime) <> 1%nat ->
      save_name path_extname extName_mime name mime = name)
  /\ (save_name path_extname extName_mime name mime <> name <->
      List.length (extName_mime mime) = 1%nat)
  /\ (forall h o item webContents,
      filename o = None ->
      getFilename h item = name -> getMimeType h item = mime ->
      filePath (closure_for path_join path_extname extName_mime h o
                            item webContents)
      = unusedFilename_sync h
          (path_join (or_else (directory o) (app_getPath_downloads h))
                     (save_name path_extname extName_mime name mime))).
Proof.
  intros Hext.
  assert (Hs : save_name path_extname extName_mime name mime
               = getFilenameFromMime extName_mime name mime).
  { unfold save_name. rewrite Hext. reflexivity. }
  rewrite Hs. unfold getFilenameFromMime.
  repeat split.
  - intros e He. rewrite He. reflexivity.
  - intros Hlen. destruct (extName_mime mime) as [|e [|e' l]]; simpl in *;
      congruence.
  - intros Hne. destruct (extName_mime mime) as [|e [|e' l]]; simpl in *;
      congruence.
  - intros Hlen. destruct (extName_mime mime) as [|e [|e' l]]; simpl in *;
      try discriminate.
    apply append_grows.
  - intros h o item webContents Hf Hn Hm.
    unfold closure_for. simpl. rewrite Hf, Hn, Hm, Hs. reflexivity.
Qed.

(** *** The progress payload *)

(** C4.  Whenever an 'updated' handler calls onProgress, the payload is
    built from the item of that handler alone: percent is the item's
    received bytes divided by its total bytes when the total is not 0 and
    is 0 when it is 0, transferredBytes is the item's received bytes and
    totalBytes the item's total bytes.  When onProgress is supplied and
    the window was resolved, the handler makes exactly one such call, as
    its last call. *)
Theorem onProgress_payload_per_item (h : Host) (c : Closure) (s : Registration) :
  let fx := effects_of (updated_handler h c s) in
  let received := getReceivedBytes h (c_item c) in
  let total := getTotalBytes h (c_item c) in
  (forall f p, In (call_onProgress f p) fx ->
     onProgress (options s) = Some f
     /\ (total <> 0 -> Progress.percent p = Quot received total)
     /\ (total = 0 -> Progress.percent p = Int 0)
     /\ Progress.transferredBytes p = received
     /\ Progress.totalBytes p = total)
  /\ (forall f w, onProgress (options s) = Some f -> window_ c = Some w ->
      exists pre p,
        fx = pre ++ [call_onProgress f p] /\ none_of is_onProgress pre).
Proof.
  intros fx received total. subst fx.
  rewrite updated_handler_run. split.
  - intros f p Hin.
    destruct (window_ c) as [w|]; unfold effects_of in Hin; simpl in Hin.
    + apply in_app_or in Hin. destruct Hin as [Hin|Hin].
      { destruct (badge_enabled h (options s)); simpl in Hin;
          [destruct Hin as [Hin|[]]; discriminate | contradiction]. }
      apply in_app_or in Hin. destruct Hin as [Hin|Hin].
      { destruct (isDestroyed h w); simpl in Hin;
          [contradiction | destruct Hin as [Hin|[]]; discriminate]. }
      destruct (onProgress (options s)) as [g|]; simpl in Hin;
        [|contradiction].
      destruct Hin as [Hin|[]]. injection Hin as Hf Hp. subst g p.
      unfold progress_of; simpl. fold total received.
      repeat split; auto.
      * intros Hne. apply Z.eqb_neq in Hne. rewrite Hne. reflexivity.
      * intros Hz. apply Z.eqb_eq in Hz. rewrite Hz. reflexivity.
    + destruct (badge_enabled h (options s)); simpl in Hin;
        [destruct Hin as [Hin|[]]; discriminate | contradiction].
  - intros f w Hf Hw. rewrite Hw, Hf. unfold effects_of; simpl.
    eexists. exists (progress_of h (c_item c)).
    rewrite app_assoc. split; [reflexivity|].
    apply none_of_app. split.
    + destruct (badge_enabled h (options s)); reflexivity.
    + destruct (isDestroyed h w); reflexivity.
Qed.

(** *** The promise of download *)

Lemma promise_after_app (fx1 fx2 : list Effect) (p : Promise) :
  promise_after (fx1 ++ fx2) p = promise_after fx2 (promise_after fx1 p).
Proof. unfold promise_after. apply fold_left_app. Qed.

Lemma promise_after_no_callback (fx : list Effect) (p : Promise) :
  none_of is_callback fx -> promise_after fx p = p.
Proof.
  unfold none_of, promise_after.
  induction fx as [|e fx IH]; simpl; intros H.
  - reflexivity.
  - apply andb_true_iff in H. destruct H as [He Hfx].
    destruct e; simpl in He; try discriminate; simpl; auto.
Qed.

Lemma badge_not (k : Effect -> bool) (b : bool) (n : nat) :
  k (app_badgeCount n) = false ->
  none_of k (if b then [app_badgeCount n] else []).
Proof. intros H. destruct b; unfold none_of; simpl; [rewrite H|]; reflexivity. Qed.

Lemma done_prefix_not (k : Effect -> bool) (b1 b2 b3 : bool) (n : nat)
      (w : Win) (v : JSNumber) :
  k (app_badgeCount n) = false ->
  k (window_setProgressBar w v) = false ->
  k session_removeListener = false ->
  none_of k ((if b1 then [app_badgeCount n] else [])
             ++ (if b2 then [window_setProgressBar w v] else [])
             ++ (if b3 then [session_removeListener] else [])).
Proof.
  intros H1 H2 H3. unfold none_of.
  destruct b1, b2, b3; simpl; rewrite ?H1, ?H2, ?H3; reflexivity.
Qed.

(** *** Interrupted items *)

(** X13.  When the 'done' handler of an item whose window was resolved
    runs with state 'interrupted', it formats the configured template
    (options.errorMessage, or the default) with pupa on the item's
    filename, shows the error box with the configured title
    (options.errorTitle, or the default) and that message, and then, as
    its last call, invokes the callback with an Error of that same
    message; these are its only dialog and callback calls.  A pending
    promise of download is thereby rejected with that Error. *)
Theorem interrupted_shows_dialog_then_calls_back
        (h0 h : Host) (o : Options) (item : Item) (webContents : WebContents)
        (w : Win) (s : Registration) :
  let c := closure_for path_join path_extname extName_mime h0 o item webContents in
  let r := done_handler path_join pupa h interrupted c s in
  let title := or_else (errorTitle o) "Download Error" in
  let template :=
    or_else (errorMessage o) "The download of {filename} was interrupted" in
  let msg := pupa template (getFilename h item) in
  owner_window h0 webContents = Some w ->
  threw r = false
  /\ (exists pre,
        effects_of r
        = pre ++ [dialog_showErrorBox title msg;
                  call_callback (Some {| message := msg |}) None]
        /\ none_of is_showErrorBox pre /\ none_of is_callback pre)
  /\ promise_after (effects_of r) pending = rejected {| message := msg |}.
Proof.
  intros c r title template msg Hw. subst r.
  rewrite done_handler_run.
  assert (Hc : window_ c = Some w) by exact Hw.
  rewrite Hc. unfold threw, effects_of; simpl.
  split; [reflexivity|].
  split.
  - eexists. rewrite !app_assoc. split; [reflexivity|].
    rewrite <- app_assoc.
    split; apply done_prefix_not; reflexivity.
  - rewrite !app_assoc. rewrite promise_after_app.
    rewrite (promise_after_no_callback ((_ ++ _) ++ _)).
    + reflexivity.
    + rewrite <- app_assoc. apply done_prefix_not; reflexivity.
Qed.

(** *** Cancelled items *)

Lemma run_handlers_none_of (k : Effect -> bool) (f : Closure -> M unit) :
  (forall c s, none_of k (effects_of (f c s))) ->
  forall cs s, none_of k (effects_of (run_handlers f cs s)).
Proof.
  intros Hf. induction cs as [|c cs IH]; intros s.
  - reflexivity.
  - rewrite run_handlers_cons.
    specialize (Hf c s).
    destruct (f c s) as [[s1 fx1] [[]|]].
    + specialize (IH s1).
      destruct (run_handlers f cs s1) as [[s2 fx2] r].
      unfold effects_of in *; simpl in *.
      apply none_of_app. split; assumption.
    + exact Hf.
Qed.

Lemma listener_no_callback (h : Host) (item : Item) (wc : WebContents)
      (s : Registration) :
  none_of is_callback
    (effects_of (listener path_join path_extname extName_mime h item wc s)).
Proof.
  rewrite listener_run. unfold effects_of; simpl.
  destruct (truthy_bool (saveAs (options s)));
    destruct (onStarted (options s)); reflexivity.
Qed.

Lemma updated_no_callback (h : Host) (c : Closure) (s : Registration) :
  none_of is_callback (effects_of (updated_handler h c s)).
Proof.
  rewrite updated_handler_run. unfold effects_of.
  destruct (window_ c) as [w|]; simpl.
  - destruct (badge_enabled h (options s)); destruct (isDestroyed h w);
      destruct (onProgress (options s)); reflexivity.
  - destruct (badge_enabled h (options s)); reflexivity.
Qed.

Lemma cancelled_no_callback (h : Host) (c : Closure) (s : Registration) :
  none_of is_callback
    (effects_of (done_handler path_join pupa h cancelled c s)).
Proof.
  rewrite done_handler_run. unfold effects_of.
  destruct (window_ c) as [w|]; simpl.
  - rewrite !app_assoc. apply none_of_app. split.
    + rewrite <- app_assoc. apply done_prefix_not; reflexivity.
    + destruct (onCancel (options s)); reflexivity.
  - apply badge_not. reflexivity.
Qed.

Lemma deliver_no_callback (h : Host) (e : Event) (s : Registration) :
  (forall item state, e = done item state -> state = cancelled) ->
  none_of is_callback
    (effects_of (deliver path_join path_extname extName_mime pupa h e s)).
Proof.
  intros He. destruct e as [item wc|item|item state]; unfold deliver; run_monad.
  - destruct (listening s).
    + pose proof (listener_no_callback h item wc s) as H.
      destruct (listener _ _ _ h item wc s) as [[s1 fx1] r]. exact H.
    + reflexivity.
  - pose proof (run_handlers_none_of is_callback (updated_handler h)
                  (updated_no_callback h) (handlers_of item s) s) as H.
    destruct (run_handlers _ _ s) as [[s1 fx1] r]. exact H.
  - rewrite (He item state eq_refl).
    pose proof (run_handlers_none_of is_callback
                  (done_handler path_join pupa h cancelled)
                  (cancelled_no_callback h) (handlers_of item s) s) as H.
    destruct (run_handlers _ _ s) as [[s1 fx1] r]. exact H.
Qed.

(** X14.  The 'done' handler run with state 'cancelled' never invokes the
    completion callback, so it leaves the promise of download as it was;
    when the window was resolved it calls onCancel with the item if
    onCancel is supplied (once, as its last call) and does not call it
    otherwise.  No other handler of the item invokes the callback either:
    over any sequence of events in which every 'done' carries the state
    'cancelled', the callback is never invoked and the promise stays
    pending. *)
Theorem cancelled_reports_only_through_onCancel
        (h : Host) (c : Closure) (s : Registration) :
  let r := done_handler path_join pupa h cancelled c s in
  none_of is_callback (effects_of r)
  /\ (forall p, promise_after (effects_of r) p = p)
  /\ (forall w f, window_ c = Some w -> onCancel (options s) = Some f ->
      exists pre, effects_of r = pre ++ [call_onCancel f (c_item c)]
                  /\ none_of is_onCancel pre)
  /\ (onCancel (options s) = None -> none_of is_onCancel (effects_of r))
  /\ (forall tr s0,
      (forall h' item state, In (h', done item state) tr -> state = cancelled) ->
      let fx := snd (run path_join path_extname extName_mime pupa tr s0) in
      none_of is_callback fx /\ promise_after fx pending = pending).
Proof.
  intros r. subst r.
  split; [apply cancelled_no_callback|].
  split; [intros p; apply promise_after_no_callback, cancelled_no_callback|].
  split; [|split].
  - intros w f Hw Hf. rewrite done_handler_run, Hw.
    unfold effects_of; simpl. rewrite Hf.
    eexists. rewrite !app_assoc. split; [reflexivity|].
    rewrite <- app_assoc. apply done_prefix_not; reflexivity.
  - intros Hf. rewrite done_handler_run. unfold effects_of.
    destruct (window_ c) as [w|]; simpl.
    + rewrite Hf, app_nil_r. rewrite app_assoc, <- app_assoc.
      apply done_prefix_not; reflexivity.
    + apply badge_not. reflexivity.
  - intros tr s0 Htr.
    assert (H : none_of is_callback
                  (snd (run path_join path_extname extName_mime pupa tr s0))).
    { revert s0. induction tr as [|[h' e] tr IH]; intros s0.
      - reflexivity.
      - cbn [run].
        pose proof (deliver_no_callback h' e s0) as Hd.
        destruct (deliver _ _ _ _ h' e s0) as [[s1 fx1] r1].
        assert (IH' : none_of is_callback
                  (snd (run path_join path_extname extName_mime pupa tr s1))).
        { apply IH. intros h'' item state Hin.
          apply (Htr h'' item state). right. exact Hin. }
        destruct (run _ _ _ _ tr s1) as [s2 fx2]. simpl in *.
        apply none_of_app. split; [|exact IH'].
        apply Hd. intros item state ->.
        apply (Htr h' item state). left. reflexivity. }
    split; [exact H|]. apply promise_after_no_callback. exact H.
Qed.

(** *** Destroyed windows *)

(** C7 (as amended).  For an item whose window was resolved and has been
    destroyed when the tick arrives, the 'updated' and the 'done' handler
    do not throw; they make no setProgressBar call and the 'done' handler
    does not reset the counters.  The counters are still updated
    (receivedBytes recomputed; the item's total added to completedBytes
    and the item removed from the set), the badge count is still set
    whenever showBadge and the platform allow it, onProgress is still
    called and the completion callback is still invoked for 'completed'
    and 'interrupted'. *)
Theorem destroyed_window_skips_progress_bar_and_reset
        (h : Host) (state : DoneState) (c : Closure) (s : Registration)
        (w : Win) :
  let ru := updated_handler h c s in
  let rd := done_handler path_join pupa h state c s in
  window_ c = Some w -> isDestroyed h w = true ->
  (threw ru = false /\ threw rd = false)
  /\ (none_of is_setProgressBar (effects_of ru)
      /\ none_of is_setProgressBar (effects_of rd))
  /\ state_of ru
     = set_receivedBytes (completedBytes s + sum_received h (downloadItems s)) s
  /\ (completedBytes (state_of rd) = completedBytes s + getTotalBytes h (c_item c)
      /\ downloadItems (state_of rd) = Set_delete (c_item c) (downloadItems s)
      /\ receivedBytes (state_of rd) = receivedBytes s
      /\ totalBytes (state_of rd) = totalBytes s)
  /\ (badge_enabled h (options s) = true ->
      In (app_badgeCount (List.length (downloadItems s))) (effects_of ru)
      /\ In (app_badgeCount
               (List.length (Set_delete (c_item c) (downloadItems s))))
            (effects_of rd))
  /\ (forall f, onProgress (options s) = Some f ->
      In (call_onProgress f (progress_of h (c_item c))) (effects_of ru))
  /\ (state = completed ->
      In (call_callback None (Some (c_item c))) (effects_of rd))
  /\ (state = interrupted ->
      In (call_callback
            (Some {| message := pupa (c_errorMessage c)
                                     (getFilename h (c_item c)) |}) None)
         (effects_of rd)).
Proof.
  intros ru rd Hw Hd. subst ru rd.
  rewrite updated_handler_run, done_handler_run, Hw, Hd.
  unfold threw, effects_of, state_of; simpl.
  split; [split; reflexivity|].
  split.
  { split.
    - destruct (badge_enabled h (options s));
        destruct (onProgress (options s)); reflexivity.
    - apply none_of_app. split; [apply badge_not; reflexivity|].
      apply none_of_app. split;
        [destruct (unregisters (options s)); reflexivity|].
      destruct state; simpl.
      + destruct (platform h =? "darwin")%string;
          destruct (truthy_bool (openFolderWhenDone (options s)));
          reflexivity.
      + destruct (onCancel (options s)); reflexivity.
      + reflexivity. }
  split; [reflexivity|].
  split.
  { destruct (unregisters (options s)); simpl; repeat split; reflexivity. }
  split.
  { intros Hb. rewrite Hb. split; left; reflexivity. }
  split.
  { intros f Hf. rewrite Hf. apply in_or_app. right. left. reflexivity. }
  split.
  - intros ->. simpl. apply in_or_app. right. apply in_or_app. right.
    apply in_or_app. right. apply in_or_app. right. left. reflexivity.
  - intros ->. simpl. apply in_or_app. right. apply in_or_app. right.
    right. left. reflexivity.
Qed.

(** *** The options of download *)

Lemma listener_options (h : Host) (item : Item) (wc : WebContents)
      (s : Registration) :
  options (state_of (listener path_join path_extname extName_mime h item wc s))
  = options s.
Proof. rewrite listener_run. reflexivity. Qed.

Lemma registerListener_options (h : Host) (o : Options) :
  options (state_of (registerListener path_join path_extname extName_mime h o))
  = resolve_options o.
Proof.
  unfold registerListener.
  destruct (webview (resolve_options o)) as [wv|].
  - rewrite listener_options. reflexivity.
  - reflexivity.
Qed.

(** C9.  The options download works with are the caller's with
    unregisterWhenDone set to true, whatever the caller gave for that
    flag, and every other field as the caller gave it.  They are the
    options handed to registerListener for a BrowserWindow, so the
    registration it creates has unregisterWhenDone true and the caller's
    other fields (showBadge defaulting to true there when absent), and
    they are the options sent to the main process for a webview. *)
Theorem download_forces_unregisterWhenDone
        (h : Host) (url : string) (o : Options) :
  let o' := download_options o in
  let reg := registerListener path_join path_extname extName_mime h o' in
  unregisterWhenDone o' = Some true
  /\ (saveAs o' = saveAs o /\ directory o' = directory o
      /\ filename o' = filename o /\ errorTitle o' = errorTitle o
      /\ errorMessage o' = errorMessage o /\ onStarted o' = onStarted o
      /\ onProgress o' = onProgress o /\ onCancel o' = onCancel o
      /\ openFolderWhenDone o' = openFolderWhenDone o
      /\ showBadge o' = showBadge o /\ webview o' = webview o)
  /\ download path_join path_extname extName_mime h browserWindow url o
     = registered reg url
  /\ (forall partition,
      download path_join path_extname extName_mime h
               (webviewTag partition true) url o
      = ipc_sent o' url partition)
  /\ unregisterWhenDone (options (state_of reg)) = Some true
  /\ (let ro := options (state_of reg) in
      saveAs ro = saveAs o /\ directory ro = directory o
      /\ filename ro = filename o /\ errorTitle ro = errorTitle o
      /\ errorMessage ro = errorMessage o /\ onStarted ro = onStarted o
      /\ onProgress ro = onProgress o /\ onCancel ro = onCancel o
      /\ openFolderWhenDone ro = openFolderWhenDone o
      /\ showBadge ro = match showBadge o with
                        | Some b => Some b
                        | None => Some true
                        end
      /\ webview ro = webview o).
Proof.
  intros o' reg. subst reg.
  rewrite registerListener_options.
  split; [reflexivity|].
  split; [repeat split|].
  split; [reflexivity|].
  split; [reflexivity|].
  split; [reflexivity|].
  repeat split.
Qed.

(** *** The folder revealed *)

(** C10.  When the 'done' handler of an item whose window was resolved
    runs with state 'completed' and openFolderWhenDone is set, its one
    showItemInFolder call, made just before the callback, reveals the
    configured directory (options.directory, or the downloads directory)
    joined with item.getFilename().  The path the item is saved to is
    another value: the directory joined with options.filename when that
    option is given, and otherwise the unused variant of the directory
    joined with the name derived from the suggested filename; it is the
    path the listener passes to setSavePath.  So the two differ as soon as
    the filename option or the disambiguation yields another path. *)
Theorem openFolderWhenDone_reveals_suggested_filename
        (h0 h : Host) (o : Options) (item : Item) (webContents : WebContents)
        (w : Win) (s0 s : Registration) :
  let c := closure_for path_join path_extname extName_mime h0 o item webContents in
  let dir := or_else (directory o) (app_getPath_downloads h0) in
  let revealed := path_join dir (getFilename h item) in
  let auto :=
    unusedFilename_sync h0
      (path_join dir (save_name path_extname extName_mime
                                (getFilename h0 item) (getMimeType h0 item))) in
  let r := done_handler path_join pupa h completed c s in
  options s0 = o -> options s = o ->
  owner_window h0 webContents = Some w ->
  truthy_bool (openFolderWhenDone o) = true ->
  (exists pre,
      effects_of r
      = pre ++ [shell_showItemInFolder revealed;
                call_callback None (Some item)]
      /\ none_of is_showItemInFolder pre)
  /\ (forall f, filename o = Some f -> truthy_string f = true ->
      filePath c = path_join dir f
      /\ (path_join dir f <> revealed -> filePath c <> revealed))
  /\ (truthy_str (filename o) = false ->
      filePath c = auto /\ (auto <> revealed -> filePath c <> revealed))
  /\ (truthy_bool (saveAs o) = false ->
      In (item_setSavePath item (filePath c))
         (effects_of (listener path_join path_extname extName_mime
                               h0 item webContents s0))).
Proof.
  intros c dir revealed auto r Hs0 Hs Hw Hopen. subst r.
  rewrite done_handler_run.
  assert (Hc : window_ c = Some w) by exact Hw.
  rewrite Hc, Hs. unfold effects_of; simpl. rewrite Hopen.
  split.
  { eexists. split.
    - rewrite !app_assoc. rewrite <- (app_assoc _ _ [call_callback _ _]).
      simpl. reflexivity.
    - rewrite <- !app_assoc. rewrite !app_assoc.
      apply none_of_app. split.
      + rewrite <- app_assoc. apply done_prefix_not; reflexivity.
      + destruct (platform h =? "darwin")%string; reflexivity. }
  split.
  { intros f Hf Ht.
    assert (Hp : filePath c = path_join dir f).
    { unfold c, closure_for; simpl. rewrite Hf, Ht. reflexivity. }
    split; [exact Hp|]. intros Hne He. apply Hne.
    transitivity (filePath c); [symmetry; exact Hp | exact He]. }
  split.
  { intros Hf.
    assert (Hp : filePath c = auto).
    { unfold c, closure_for; simpl. unfold truthy_str in Hf.
      destruct (filename o) as [f|]; [rewrite Hf|]; reflexivity. }
    split; [exact Hp|]. intros Hne He. apply Hne.
    transitivity (filePath c); [symmetry; exact Hp | exact He]. }
  intros Hsave. rewrite listener_run. unfold effects_of; simpl.
  rewrite Hs0, Hsave. left. reflexivity.
Qed.

(** *** What the handlers leave alone *)

Lemma run_handlers_preserves (P : Registration -> Prop) (f : Closure -> M unit) :
  (forall c s, P s -> P (state_of (f c s))) ->
  forall cs s, P s -> P (state_of (run_handlers f cs s)).
Proof.
  intros Hf. induction cs as [|c cs IH]; intros s Hs.
  - exact Hs.
  - rewrite run_handlers_cons.
    specialize (Hf c s Hs).
    destruct (f c s) as [[s1 fx1] [[]|]].
    + specialize (IH s1 Hf).
      destruct (run_handlers f cs s1) as [[s2 fx2] r]. exact IH.
    + exact Hf.
Qed.

Lemma updated_handler_detached (o : Options) (hs : list Closure) (h : Host)
      (c : Closure) (s : Registration) :
  detached o hs s -> detached o hs (state_of (updated_handler h c s)).
Proof.
  rewrite updated_handler_run. destruct (window_ c); intros H; exact H.
Qed.

Lemma done_handler_detached (o : Options) (hs : list Closure) (h : Host)
      (state : DoneState) (c : Closure) (s : Registration) :
  detached o hs s ->
  detached o hs (state_of (done_handler path_join pupa h state c s)).
Proof.
  rewrite done_handler_run. unfold detached, state_of.
  destruct (window_ c) as [w|]; simpl; [|intros H; exact H].
  destruct (negb (isDestroyed h w) && _); destruct (unregisters (options s));
    simpl; intuition.
Qed.

Lemma updated_no_listener_call (h : Host) (c : Closure) (s : Registration) :
  none_of is_listener_call (effects_of (updated_handler h c s)).
Proof.
  rewrite updated_handler_run. unfold effects_of.
  destruct (window_ c) as [w|]; simpl.
  - destruct (badge_enabled h (options s)); destruct (isDestroyed h w);
      destruct (onProgress (options s)); reflexivity.
  - destruct (badge_enabled h (options s)); reflexivity.
Qed.

Lemma done_no_listener_call (h : Host) (state : DoneState) (c : Closure)
      (s : Registration) :
  none_of is_listener_call
    (effects_of (done_handler path_join pupa h state c s)).
Proof.
  rewrite done_handler_run. unfold effects_of.
  destruct (window_ c) as [w|]; simpl.
  - rewrite !app_assoc. apply none_of_app. split.
    + rewrite <- app_assoc. apply done_prefix_not; reflexivity.
    + destruct state; simpl.
      * destruct (platform h =? "darwin")%string;
          destruct (truthy_bool (openFolderWhenDone (options s)));
          reflexivity.
      * destruct (onCancel (options s)); reflexivity.
      * reflexivity.
  - apply badge_not. reflexivity.
Qed.

Lemma deliver_detached (o : Options) (hs : list Closure) (h : Host)
      (e : Event) (s : Registration) :
  detached o hs s ->
  detached o hs
    (state_of (deliver path_join path_extname extName_mime pupa h e s))
  /\ none_of is_listener_call
       (effects_of (deliver path_join path_extname extName_mime pupa h e s)).
Proof.
  intros Hs. destruct e as [item wc|item|item state]; unfold deliver; run_monad.
  - destruct Hs as (Ho & Hh & Hl). rewrite Hl.
    split; [repeat split; assumption | reflexivity].
  - pose proof (run_handlers_preserves (detached o hs) (updated_handler h)
                  (updated_handler_detached o hs h) (handlers_of item s) s Hs)
      as H1.
    pose proof (run_handlers_none_of is_listener_call (updated_handler h)
                  (updated_no_listener_call h) (handlers_of item s) s) as H2.
    destruct (run_handlers _ _ s) as [[s1 fx1] r]. split; assumption.
  - pose proof (run_handlers_preserves (detached o hs)
                  (done_handler path_join pupa h state)
                  (done_handler_detached o hs h state) (handlers_of item s) s Hs)
      as H1.
    pose proof (run_handlers_none_of is_listener_call
                  (done_handler path_join pupa h state)
                  (done_no_listener_call h state) (handlers_of item s) s) as H2.
    destruct (run_handlers _ _ s) as [[s1 fx1] r]. split; assumption.
Qed.

Lemma run_detached (o : Options) (hs : list Closure)
      (tr : list (Host * Event)) :
  forall s, detached o hs s ->
  detached o hs (fst (run path_join path_extname extName_mime pupa tr s))
  /\ none_of is_listener_call
       (snd (run path_join path_extname extName_mime pupa tr s)).
Proof.
  induction tr as [|[h e] tr IH]; intros s Hs.
  - split; [exact Hs | reflexivity].
  - cbn [run].
    destruct (deliver_detached o hs h e s Hs) as [H1 H2].
    destruct (deliver _ _ _ _ h e s) as [[s1 fx1] r1].
    destruct (IH s1 H1) as [H3 H4].
    destruct (run _ _ _ _ tr s1) as [s2 fx2]. simpl in *.
    split; [exact H3|]. apply none_of_app. split; assumption.
Qed.

Lemma deliver_options (h : Host) (e : Event) (s : Registration) :
  options (state_of (deliver path_join path_extname extName_mime pupa h e s))
  = options s.
Proof.
  destruct e as [item wc|item|item state]; unfold deliver; run_monad.
  - destruct (listening s); [|reflexivity].
    pose proof (listener_options h item wc s) as H.
    destruct (listener _ _ _ h item wc s) as [[s1 fx1] r]. exact H.
  - assert (Hu : forall c x, options x = options s ->
                   options (state_of (updated_handler h c x)) = options s).
    { intros c x Hx. rewrite updated_handler_run.
      destruct (window_ c); exact Hx. }
    pose proof (run_handlers_preserves _ _ Hu (handlers_of item s) s eq_refl)
      as H'.
    destruct (run_handlers _ _ s) as [[s1 fx1] r]. exact H'.
  - assert (Hd : forall c x, options x = options s ->
                   options (state_of (done_handler path_join pupa h state c x))
                   = options s).
    { intros c x Hx. rewrite done_handler_run. unfold state_of.
      destruct (window_ c) as [w|]; simpl; [|exact Hx].
      destruct (negb (isDestroyed h w) && _);
        destruct (unregisters (options x)); exact Hx. }
    pose proof (run_handlers_preserves _ _ Hd (handlers_of item s) s eq_refl)
      as H'.
    destruct (run_handlers _ _ s) as [[s1 fx1] r]. exact H'.
Qed.

Lemma run_options (tr : list (Host * Event)) :
  forall s,
    options (fst (run path_join path_extname extName_mime pupa tr s))
    = options s.
Proof.
  induction tr as [|[h e] tr IH]; intros s.
  - reflexivity.
  - cbn [run].
    pose proof (deliver_options h e s) as H1.
    destruct (deliver _ _ _ _ h e s) as [[s1 fx1] r1].
    specialize (IH s1).
    destruct (run _ _ _ _ tr s1) as [s2 fx2].
    unfold state_of in H1. simpl in *.
    congruence.
Qed.

(** *** Detaching the listener *)

Lemma done_handler_unregisters (h : Host) (state : DoneState) (c : Closure)
      (s : Registration) (w : Win) :
  window_ c = Some w -> unregisters (options s) = true ->
  exists s' fx,
    done_handler path_join pupa h state c s = (s', fx, Some tt)
    /\ In session_removeListener fx
    /\ detached (options s) (handlers s) s'.
Proof.
  intros Hw Hu. rewrite done_handler_run, Hw, Hu. cbv zeta.
  eexists. eexists. split; [reflexivity|]. split.
  - apply in_or_app. right. apply in_or_app. right. left. reflexivity.
  - unfold detached.
    destruct (negb (isDestroyed h w) && _); repeat split; reflexivity.
Qed.

(** X15.  A registration without the webview option listens for
    'will-download' from the start.  With unregisterWhenDone set, the
    'done' event of a tracked item whose window was resolved, whatever its
    terminal state and whatever happened before, makes the handler call
    session.removeListener: the registration is detached at once and,
    over every later sequence of events, stays detached, installs no
    further handlers and makes none of the calls of a listener run
    (setSavePath, onStarted); a later start event changes nothing and
    calls nothing. *)
Theorem unregisterWhenDone_detaches_at_first_done
        (h0 h : Host) (o : Options) (tr1 : list (Host * Event))
        (item : Item) (state : DoneState) (c : Closure)
        (rest : list Closure) (w : Win) :
  let s0 := state_of (registerListener path_join path_extname extName_mime h0 o) in
  let s1 := fst (run path_join path_extname extName_mime pupa tr1 s0) in
  let r := deliver path_join path_extname extName_mime pupa h
                   (done item state) s1 in
  webview o = None ->
  truthy_bool (unregisterWhenDone o) = true ->
  handlers_of item s1 = c :: rest ->
  window_ c = Some w ->
  listening s0 = true
  /\ In session_removeListener (effects_of r)
  /\ listening (state_of r) = false
  /\ (forall tr2,
      let s2 := fst (run path_join path_extname extName_mime pupa tr2
                         (state_of r)) in
      listening s2 = false
      /\ handlers s2 = handlers (state_of r)
      /\ none_of is_listener_call
           (snd (run path_join path_extname extName_mime pupa tr2 (state_of r)))
      /\ forall h' item' webContents',
           deliver path_join path_extname extName_mime pupa h'
                   (will_download item' webContents') s2
           = (s2, [], Some tt)).
Proof.
  intros s0 s1 r Hwv Hflag Hcs Hw.
  assert (Ho1 : options s1 = resolve_options o).
  { unfold s1. rewrite run_options. apply registerListener_options. }
  assert (Hu : unregisters (options s1) = true).
  { rewrite Ho1. unfold unregisters; simpl. rewrite Hflag, Hwv. reflexivity. }
  assert (Hr : In session_removeListener (effects_of r)
               /\ detached (options s1) (handlers s1) (state_of r)).
  { unfold r, deliver. run_monad. rewrite Hcs, run_handlers_cons.
    destruct (done_handler_unregisters h state c s1 w Hw Hu)
      as (s' & fx & Heq & Hin & Hdet).
    rewrite Heq.
    pose proof (run_handlers_preserves _ _
                  (done_handler_detached (options s1) (handlers s1) h state)
                  rest s' Hdet) as Hrest.
    destruct (run_handlers _ rest s') as [[s'' fx''] r''].
    split; [|exact Hrest].
    simpl. apply in_or_app. left. exact Hin. }
  destruct Hr as [Hin Hdet].
  split.
  { unfold s0, registerListener. simpl. rewrite Hwv. reflexivity. }
  split; [exact Hin|].
  split; [apply Hdet|].
  intros tr2 s2.
  assert (Hdet' : detached (options (state_of r)) (handlers (state_of r))
                           (state_of r)).
  { repeat split. apply Hdet. }
  destruct (run_detached _ _ tr2 (state_of r) Hdet') as [(_ & Hh & Hl) Hn].
  fold s2 in Hh, Hl.
  split; [exact Hl|]. split; [exact Hh|]. split; [exact Hn|].
  intros h' item' wc'. unfold deliver. run_monad. rewrite Hl. reflexivity.
Qed.

(** *** Resetting the counters *)

Lemma Set_add_new (x : Item) (l : list Item) :
  ~ In x l -> Set_add x l = l ++ [x].
Proof.
  unfold Set_add. induction l as [|a l IH]; simpl; intros Hx.
  - reflexivity.
  - destruct (Nat.eq_dec x a) as [->|Hne].
    + exfalso. apply Hx. left. reflexivity.
    + rewrite IH; [reflexivity|]. intros Hin. apply Hx. right. exact Hin.
Qed.

Lemma handlers_of_absent (mk : Item -> Closure) (items : list Item) (i : Item) :
  (forall j, c_item (mk j) = j) -> ~ In i items ->
  filter (fun c => (c_item c =? i)%nat) (map mk items) = [].
Proof.
  intros Hmk. induction items as [|a l IH]; simpl; intros Hi.
  - reflexivity.
  - rewrite Hmk. destruct (Nat.eqb_spec a i) as [->|Hne].
    + exfalso. apply Hi. left. reflexivity.
    + apply IH. intros Hin. apply Hi. right. exact Hin.
Qed.

Lemma handlers_of_single (mk : Item -> Closure) (items : list Item) (i : Item) :
  (forall j, c_item (mk j) = j) -> NoDup items -> In i items ->
  filter (fun c => (c_item c =? i)%nat) (map mk items) = [mk i].
Proof.
  intros Hmk. induction items as [|a l IH]; simpl; intros Hnd Hi.
  - contradiction.
  - inversion Hnd as [|a' l' Ha Hl]; subst.
    rewrite Hmk. destruct (Nat.eqb_spec a i) as [->|Hne].
    + rewrite handlers_of_absent; auto.
    + destruct Hi as [Hi|Hi]; [congruence|]. apply IH; assumption.
Qed.

Lemma done_handler_alive (h : Host) (state : DoneState) (c : Closure)
      (s : Registration) (w : Win) :
  window_ c = Some w -> isDestroyed h w = false ->
  exists s' fx,
    done_handler path_join pupa h state c s = (s', fx, Some tt)
    /\ downloadItems s' = Set_delete (c_item c) (downloadItems s)
    /\ handlers s' = handlers s
    /\ (downloadItems s' = [] ->
        counters_zero s' /\ In (window_setProgressBar w (Int (-1))) fx).
Proof.
  intros Hw Hd. rewrite done_handler_run, Hw, Hd. cbv zeta.
  eexists. eexists. split; [reflexivity|].
  unfold after_eviction. simpl.
  destruct (List.length (Set_delete (c_item c) (downloadItems s)) =? 0)%nat eqn:E.
  - split; [destruct (unregisters (options s)); reflexivity|].
    split; [destruct (unregisters (options s)); reflexivity|].
    intros _. split.
    + destruct (unregisters (options s)); repeat split.
    + apply in_or_app. right. left. reflexivity.
  - split; [destruct (unregisters (options s)); reflexivity|].
    split; [destruct (unregisters (options s)); reflexivity|].
    intros Hnil. exfalso.
    assert (Hnil' : Set_delete (c_item c) (downloadItems s) = []).
    { destruct (unregisters (options s)); exact Hnil. }
    rewrite Hnil' in E. discriminate.
Qed.

Lemma starts_run (h : Host) (wc : WebContents) (items : list Item) :
  forall s,
    listening s = true -> NoDup items ->
    (forall i, In i items -> ~ In i (downloadItems s)) ->
    let s' := fst (run path_join path_extname extName_mime pupa
                       (map (fun i => (h, will_download i wc)) items) s) in
    downloadItems s' = downloadItems s ++ items
    /\ handlers s'
       = handlers s
         ++ map (fun i => closure_for path_join path_extname extName_mime
                                      h (options s) i wc) items
    /\ totalBytes s' = totalBytes s + sum_total h items
    /\ receivedBytes s' = receivedBytes s
    /\ completedBytes s' = completedBytes s.
Proof.
  induction items as [|i items IH]; intros s Hl Hnd Hnew.
  - simpl. rewrite !app_nil_r. repeat split. lia.
  - inversion Hnd as [|i' l' Hi Hnd']; subst.
    cbn [map run]. unfold deliver. run_monad. rewrite Hl, listener_run.
    set (c := closure_for _ _ _ h (options s) i wc).
    set (s1 := set_handlers _ _).
    assert (Hl1 : listening s1 = true) by exact Hl.
    assert (Hd1 : downloadItems s1 = downloadItems s ++ [i]).
    { unfold s1; simpl. apply Set_add_new. apply Hnew. left. reflexivity. }
    assert (Hnew1 : forall j, In j items -> ~ In j (downloadItems s1)).
    { intros j Hj. rewrite Hd1. intros Hin. apply in_app_or in Hin.
      destruct Hin as [Hin|[Hin|[]]].
      - apply (Hnew j); [right; exact Hj | exact Hin].
      - subst j. exact (Hi Hj). }
    assert (Hh1 : handlers s1 = handlers s ++ [c]) by reflexivity.
    assert (Ht1 : totalBytes s1 = totalBytes s + getTotalBytes h i)
      by reflexivity.
    assert (Hr1 : receivedBytes s1 = receivedBytes s) by reflexivity.
    assert (Hc1 : completedBytes s1 = completedBytes s) by reflexivity.
    assert (Ho1 : options s1 = options s) by reflexivity.
    specialize (IH s1 Hl1 Hnd' Hnew1). cbv zeta in IH.
    clearbody s1.
    destruct (run _ _ _ _ (map _ items) s1) as [s2 fx2].
    cbn [fst] in IH. cbn [fst].
    destruct IH as (H1 & H2 & H3 & H4 & H5).
    rewrite H1, H2, H3, H4, H5, Hd1, Hh1, Ht1, Hr1, Hc1, Ho1.
    rewrite <- !app_assoc. simpl. repeat split. lia.
Qed.

Lemma dones_run (h : Host) (w : Win) (mk : Item -> Closure)
      (items : list Item) (st : Item -> DoneState) :
  (forall i, c_item (mk i) = i) -> (forall i, window_ (mk i) = Some w) ->
  isDestroyed h w = false -> NoDup items ->
  forall order s,
    handlers s = map mk items -> incl order items ->
    NoDup (downloadItems s) -> incl (downloadItems s) order ->
    let s' := fst (run path_join path_extname extName_mime pupa
                       (map (fun i => (h, done i (st i))) order) s) in
    downloadItems s' = [] /\ (order <> [] -> counters_zero s').
Proof.
  intros Hmk Hwin Halive Hnd.
  induction order as [|i rest IH]; intros s Hh Hincl HndD HD.
  - simpl. split; [|congruence].
    destruct (downloadItems s) as [|x l]; [reflexivity|].
    exfalso. apply (HD x). left. reflexivity.
  - cbn [map run]. unfold deliver. run_monad.
    unfold handlers_of. rewrite Hh.
    rewrite (handlers_of_single mk items i Hmk Hnd)
      by (apply Hincl; left; reflexivity).
    rewrite run_handlers_cons.
    destruct (done_handler_alive h (st i) (mk i) s w (Hwin i) Halive)
      as (s1 & fx1 & Heq & Hd1 & Hh1 & Hz1).
    rewrite Heq. cbn [run_handlers]. run_monad.
    rewrite Hmk in Hd1.
    assert (HndD1 : NoDup (downloadItems s1)).
    { rewrite Hd1. apply set_remove_nodup. exact HndD. }
    assert (HD1 : incl (downloadItems s1) rest).
    { intros x Hx. rewrite Hd1 in Hx.
      apply (set_remove_iff Nat.eq_dec x i HndD) in Hx.
      destruct Hx as [Hx Hne]. destruct (HD x Hx) as [He|Hr]; [congruence|exact Hr]. }
    assert (Hincl1 : incl rest items).
    { intros x Hx. apply Hincl. right. exact Hx. }
    specialize (IH s1 (eq_trans Hh1 Hh) Hincl1 HndD1 HD1). cbv zeta in IH.
    destruct rest as [|j rest'].
    + simpl in *. destruct IH as [Hnil _]. split; [exact Hnil|].
      intros _. apply Hz1. exact Hnil.
    + destruct (run _ _ _ _ (map _ (j :: rest')) s1) as [s2 fx2].
      simpl in *. destruct IH as [Hnil Hz]. split; [exact Hnil|].
      intros _. apply Hz. discriminate.
Qed.

(** C2 (as amended).  Whenever a 'done' handler whose window was resolved
    and is not destroyed leaves the set of items empty, it clears the
    progress bar and sets receivedBytes, completedBytes and totalBytes to
    0.  In particular, for N distinct items started on a registration
    without the webview option (the set then holds the N items and
    totalBytes is the sum of their totals), once all N have reached
    'done', in any order and in any terminal states, with their window
    still alive, the set is empty and the three counters are 0. *)
Theorem done_resets_counters_when_window_alive
        (h : Host) (o : Options) (items order : list Item)
        (webContents : WebContents) (w : Win) (st : Item -> DoneState) :
  let s0 := state_of (registerListener path_join path_extname extName_mime h o) in
  let starts := map (fun i => (h, will_download i webContents)) items in
  let dones := map (fun i => (h, done i (st i))) order in
  let mid := fst (run path_join path_extname extName_mime pupa starts s0) in
  let final := fst (run path_join path_extname extName_mime pupa
                        (starts ++ dones) s0) in
  webview o = None -> NoDup items -> items <> [] ->
  Permutation items order ->
  owner_window h webContents = Some w -> isDestroyed h w = false ->
  (forall state c s,
      window_ c = Some w ->
      let r := done_handler path_join pupa h state c s in
      downloadItems (state_of r) = [] ->
      counters_zero (state_of r)
      /\ In (window_setProgressBar w (Int (-1))) (effects_of r))
  /\ (downloadItems mid = items /\ totalBytes mid = sum_total h items)
  /\ (downloadItems final = [] /\ counters_zero final).
Proof.
  intros s0 starts dones mid final Hwv Hnd Hne Hperm Hw Halive.
  split.
  { intros state c s Hc r Hnil. subst r.
    destruct (done_handler_alive h state c s w Hc Halive)
      as (s' & fx & Heq & _ & _ & Hz).
    rewrite Heq in *. apply Hz. exact Hnil. }
  assert (Hs0 : s0 = set_listening true (fresh (resolve_options o))).
  { unfold s0, registerListener. simpl. rewrite Hwv. reflexivity. }
  assert (Hmid : downloadItems mid = items
                 /\ handlers mid
                    = map (fun i => closure_for path_join path_extname
                                      extName_mime h (options s0) i webContents)
                          items
                 /\ totalBytes mid = sum_total h items).
  { pose proof (starts_run h webContents items s0) as H.
    rewrite Hs0 in H. simpl in H.
    specialize (H eq_refl Hnd (fun i _ Hin => Hin)).
    destruct H as (H1 & H2 & H3 & _ & _).
    unfold mid, starts. rewrite Hs0. simpl. repeat split; assumption. }
  destruct Hmid as (Hd & Hh & Ht).
  split; [split; assumption|].
  unfold final. rewrite run_app.
  unfold mid in Hd, Hh, Ht. clear final mid.
  destruct (run path_join path_extname extName_mime pupa starts s0)
    as [smid fxmid].
  cbn [fst] in Hd, Hh, Ht.
  pose proof (dones_run h w
                (fun i => closure_for path_join path_extname extName_mime
                                      h (options s0) i webContents)
                items st (fun i => eq_refl) (fun i => Hw) Halive Hnd
                order smid Hh) as H.
  assert (Hincl : incl order items).
  { intros x Hx. apply Permutation_sym in Hperm.
    exact (Permutation_in x Hperm Hx). }
  assert (HD : incl (downloadItems smid) order).
  { rewrite Hd. intros x Hx. exact (Permutation_in x Hperm Hx). }
  rewrite <- Hd in Hnd.
  specialize (H Hincl Hnd HD). cbv zeta in H.
  fold dones in H.
  destruct (run path_join path_extname extName_mime pupa dones smid)
    as [sf fxf].
  cbn [fst] in *.
  destruct H as [Hnil Hz]. split; [exact Hnil|]. apply Hz.
  intros ->. apply Permutation_sym, Permutation_nil in Hperm.
  exact (Hne Hperm).
Qed.

End Handlers.

(** ** The properties at concrete inputs *)

(** After items 1 and 2 started, an 'updated' tick of item 1 restores the
    equation: receivedBytes is 0 + 30 + 0. *)
Lemma updated_restores_ByteCounters_eq_witness :
  handlers_of 1%nat Demo.two_started <> []
  /\ ByteCounters_eq Demo.linux
       (state_of (Demo.deliver Demo.linux (updated 1%nat) Demo.two_started)).
Proof.
  assert (H : handlers_of 1%nat Demo.two_started <> [])
    by (vm_compute; discriminate).
  split; [exact H|].
  exact (proj1 (proj2 (updated_restores_ByteCounters_eq
                         Demo.path_join Demo.path_extname Demo.extName_mime
                         Demo.pupa Demo.linux Demo.two_started))
               1%nat H).
Defined.

(** C1, as stated, fails: items 1 (100 bytes) and 2 start, item 1 gets an
    'updated' tick at 30 bytes and is then cancelled.  The 'done' handler
    adds 100 to completedBytes and leaves receivedBytes at 30, while item 2,
    still in the set, has received nothing: 30 is not 100 + 0. *)
Lemma ByteCounters_eq_broken_by_done :
  let s := fst (Demo.run [(Demo.linux, updated 1%nat);
                          (Demo.linux, done 1%nat cancelled)]
                         Demo.two_started) in
  downloadItems s = [2%nat]
  /\ receivedBytes s = 30
  /\ completedBytes s + sum_received Demo.linux (downloadItems s) = 100
  /\ ~ ByteCounters_eq Demo.linux s.
Proof.
  vm_compute. repeat split. discriminate.
Qed.

(** Two items started and then done in the other order, window alive. *)
Lemma done_resets_counters_when_window_alive_witness :
  let s := fst (Demo.run [(Demo.linux, will_download 1%nat (Demo.contents 1));
                          (Demo.linux, will_download 2%nat (Demo.contents 1));
                          (Demo.linux, done 2%nat cancelled);
                          (Demo.linux, done 1%nat completed)]
                         (state_of (Demo.registerListener Demo.linux Demo.no_options))) in
  downloadItems s = [] /\ counters_zero s.
Proof.
  refine (proj2 (proj2 (done_resets_counters_when_window_alive
            Demo.path_join Demo.path_extname Demo.extName_mime Demo.pupa
            Demo.linux Demo.no_options [1%nat; 2%nat] [2%nat; 1%nat]
            (Demo.contents 1) 7%nat
            (fun i => match i with 1%nat => completed | _ => cancelled end)
            eq_refl _ _ _ eq_refl eq_refl))).
  - repeat constructor; simpl; intuition discriminate.
  - discriminate.
  - apply perm_swap.
Defined.

(** C2, as stated, fails: item 1 starts and completes, and its window has
    been destroyed by then.  The set is empty, yet completedBytes and
    totalBytes stay at 100. *)
Lemma counters_kept_when_window_destroyed :
  let s := fst (Demo.run [(Demo.linux, will_download 1%nat (Demo.contents 1));
                          (Demo.linux_gone, done 1%nat completed)]
                         (state_of (Demo.registerListener Demo.linux Demo.no_options))) in
  downloadItems s = []
  /\ completedBytes s = 100 /\ totalBytes s = 100
  /\ ~ counters_zero s.
Proof.
  vm_compute. repeat split. intros (_ & H & _). discriminate H.
Qed.

(** "report" with MIME type application/pdf, which has the one extension
    pdf, is saved as "report.pdf". *)
Lemma save_name_appends_unique_extension_witness :
  Demo.path_extname "report" = ""
  /\ save_name Demo.path_extname Demo.extName_mime "report" "application/pdf"
     = "report.pdf"
  /\ save_name Demo.path_extname Demo.extName_mime "report" "image/jpeg"
     = "report"
  /\ save_name Demo.path_extname Demo.extName_mime "report" "application/x-none"
     = "report".
Proof.
  split; [reflexivity|].
  split; [|split].
  - exact (proj1 (save_name_appends_unique_extension
                    Demo.path_join Demo.path_extname Demo.extName_mime
                    "report" "application/pdf" eq_refl)
                 {| ext := "pdf"; ext_mime := "application/pdf" |} eq_refl).
  - apply (proj1 (proj2 (save_name_appends_unique_extension
                    Demo.path_join Demo.path_extname Demo.extName_mime
                    "report" "image/jpeg" eq_refl))).
    simpl. discriminate.
  - apply (proj1 (proj2 (save_name_appends_unique_extension
                    Demo.path_join Demo.path_extname Demo.extName_mime
                    "report" "application/x-none" eq_refl))).
    simpl. discriminate.
Defined.

(** Item 1 at 30 of 100 bytes: the one onProgress call carries 30/100, 30
    and 100. *)
Lemma onProgress_payload_per_item_witness :
  let c := Demo.closure_for Demo.linux Demo.with_callbacks 1%nat (Demo.contents 1) in
  let fx := effects_of (updated_handler Demo.linux c Demo.two_started) in
  let p := {| Progress.percent := Quot 30 100;
              Progress.transferredBytes := 30;
              Progress.totalBytes := 100 |} in
  In (call_onProgress 2%nat p) fx
  /\ (exists pre p', fx = pre ++ [call_onProgress 2%nat p']
                     /\ none_of is_onProgress pre)
  /\ (100 <> 0 -> Progress.percent p = Quot 30 100).
Proof.
  intros c fx p.
  assert (Hin : In (call_onProgress 2%nat p) fx).
  { vm_compute. right. right. left. reflexivity. }
  pose proof (onProgress_payload_per_item Demo.linux c Demo.two_started) as H.
  destruct H as [H1 H2].
  split; [exact Hin|]. split.
  - exact (H2 2%nat 7%nat eq_refl eq_refl).
  - exact (proj1 (proj2 (H1 2%nat p Hin))).
Defined.

(** Item 2, "file.zip", interrupted with the default template. *)
Lemma interrupted_shows_dialog_then_calls_back_witness :
  owner_window Demo.linux (Demo.contents 1) = Some 7%nat
  /\ promise_after
       (effects_of
          (Demo.done_handler Demo.linux interrupted
             (Demo.closure_for Demo.linux Demo.with_callbacks 2%nat
                               (Demo.contents 1))
             Demo.two_started))
       pending
     = rejected {| message := "The download of file.zip was interrupted" |}.
Proof.
  split; [reflexivity|].
  exact (proj2 (proj2 (interrupted_shows_dialog_then_calls_back
                         Demo.path_join Demo.path_extname Demo.extName_mime
                         Demo.pupa Demo.linux Demo.linux Demo.with_callbacks
                         2%nat (Demo.contents 1) 7%nat Demo.two_started
                         eq_refl))).
Defined.

(** Item 1 cancelled: onCancel is the last call, the promise stays
    pending. *)
Lemma cancelled_reports_only_through_onCancel_witness :
  let c := Demo.closure_for Demo.linux Demo.with_callbacks 1%nat (Demo.contents 1) in
  let r := Demo.done_handler Demo.linux cancelled c Demo.two_started in
  (exists pre, effects_of r = pre ++ [call_onCancel 3%nat 1%nat]
               /\ none_of is_onCancel pre)
  /\ promise_after
       (snd (Demo.run [(Demo.linux, updated 1%nat);
                       (Demo.linux, done 1%nat cancelled)] Demo.two_started))
       pending
     = pending.
Proof.
  intros c r.
  pose proof (cancelled_reports_only_through_onCancel
                Demo.path_join Demo.path_extname Demo.extName_mime Demo.pupa
                Demo.linux c Demo.two_started) as H.
  destruct H as (_ & _ & H3 & _ & H5).
  split.
  - exact (H3 7%nat 3%nat eq_refl eq_refl).
  - refine (proj2 (H5 [(Demo.linux, updated 1%nat);
                       (Demo.linux, done 1%nat cancelled)]
                      Demo.two_started _)).
    intros h' item state [Hin|[Hin|[]]]; congruence.
Defined.

(** Item 1 completes after its window was destroyed: no throw, no progress
    bar call, the callback still invoked. *)
Lemma destroyed_window_skips_progress_bar_and_reset_witness :
  let c := Demo.closure_for Demo.linux Demo.with_callbacks 1%nat (Demo.contents 1) in
  let ru := updated_handler Demo.linux_gone c Demo.two_started in
  let rd := Demo.done_handler Demo.linux_gone completed c Demo.two_started in
  (window_ c = Some 7%nat /\ isDestroyed Demo.linux_gone 7%nat = true)
  /\ (threw ru = false /\ threw rd = false)
  /\ (none_of is_setProgressBar (effects_of ru)
      /\ none_of is_setProgressBar (effects_of rd))
  /\ In (call_callback None (Some 1%nat)) (effects_of rd).
Proof.
  intros c ru rd.
  pose proof (destroyed_window_skips_progress_bar_and_reset
                Demo.path_join Demo.pupa Demo.linux_gone completed c
                Demo.two_started 7%nat eq_refl eq_refl) as H.
  destruct H as (H1 & H2 & _ & _ & _ & _ & H7 & _).
  split; [split; reflexivity|].
  split; [exact H1|]. split; [exact H2|]. exact (H7 eq_refl).
Defined.

(** C7, as stated, fails.  Item 1 started in web contents that no window
    owns: window_ is null, and both handlers throw at window_.isDestroyed(),
    the 'done' handler before it reaches the callback.  And with a window
    that is destroyed, the badge count is set all the same. *)
Lemma handlers_throw_without_window :
  window_ (Demo.closure_for Demo.linux Demo.no_options 1%nat (Demo.contents 3))
  = None
  /\ threw (Demo.deliver Demo.linux (updated 1%nat) Demo.started_without_window)
     = true
  /\ threw (Demo.deliver Demo.linux (done 1%nat completed)
                         Demo.started_without_window)
     = true
  /\ none_of is_callback
       (effects_of (Demo.deliver Demo.linux (done 1%nat completed)
                                 Demo.started_without_window))
  /\ In (app_badgeCount 2)
        (effects_of (Demo.deliver Demo.linux_gone (updated 1%nat)
                                  Demo.two_started)).
Proof.
  vm_compute. repeat split. left. reflexivity.
Qed.

(** With unregisterWhenDone, the 'done' of item 1 detaches the listener. *)
Lemma unregisterWhenDone_detaches_at_first_done_witness :
  let r := Demo.deliver Demo.linux (done 1%nat cancelled) Demo.two_started in
  In session_removeListener (effects_of r)
  /\ listening (state_of r) = false
  /\ Demo.deliver Demo.linux (will_download 3%nat (Demo.contents 1)) (state_of r)
     = (state_of r, [], Some tt).
Proof.
  intros r.
  pose proof (unregisterWhenDone_detaches_at_first_done
                Demo.path_join Demo.path_extname Demo.extName_mime Demo.pupa
                Demo.linux Demo.linux Demo.with_callbacks
                [(Demo.linux, will_download 1%nat (Demo.contents 1));
                 (Demo.linux, will_download 2%nat (Demo.contents 1))]
                1%nat cancelled
                (Demo.closure_for Demo.linux
                   (resolve_options Demo.with_callbacks) 1%nat (Demo.contents 1))
                [] 7%nat eq_refl eq_refl eq_refl eq_refl) as H.
  destruct H as (_ & H2 & H3 & H4).
  split; [exact H2|]. split; [exact H3|].
  exact (proj2 (proj2 (proj2 (H4 []))) Demo.linux 3%nat (Demo.contents 1)).
Defined.

(** With the filename option "x.bin", item 1 ("report") is saved as
    x.bin, and the folder is opened on report. *)
Lemma openFolderWhenDone_reveals_suggested_filename_witness :
  let s0 := state_of (Demo.registerListener Demo.linux Demo.with_filename) in
  let c := Demo.closure_for Demo.linux (options s0) 1%nat (Demo.contents 1) in
  let s := state_of (Demo.listener Demo.linux 1%nat (Demo.contents 1) s0) in
  let r := Demo.done_handler Demo.linux completed c s in
  (exists pre,
      effects_of r
      = pre ++ [shell_showItemInFolder "/home/u/Downloads/report";
                call_callback None (Some 1%nat)]
      /\ none_of is_showItemInFolder pre)
  /\ filePath c = "/home/u/Downloads/x.bin"
  /\ filePath c <> "/home/u/Downloads/report"
  /\ In (item_setSavePath 1%nat "/home/u/Downloads/x.bin")
        (effects_of (Demo.listener Demo.linux 1%nat (Demo.contents 1) s0)).
Proof.
  intros s0 c s r.
  pose proof (openFolderWhenDone_reveals_suggested_filename
                Demo.path_join Demo.path_extname Demo.extName_mime Demo.pupa
                Demo.linux Demo.linux (options s0) 1%nat (Demo.contents 1)
                7%nat s0 s eq_refl eq_refl eq_refl eq_refl) as H.
  destruct H as (H1 & H2 & _ & H4).
  destruct (H2 "x.bin" eq_refl eq_refl) as [H2a H2b].
  split; [exact H1|]. split; [exact H2a|]. split.
  - apply H2b. vm_compute. discriminate.
  - exact (H4 eq_refl).
Defined.

(** ** Further properties of the program *)

Lemma sum_of_app (f : Item -> Z) (l1 l2 : list Item) :
  sum_of f (l1 ++ l2) = sum_of f l1 + sum_of f l2.
Proof.
  induction l1 as [|x l1 IH]; simpl; [reflexivity | rewrite IH; lia].
Qed.

Lemma sum_of_delete (f : Item -> Z) (i : Item) (l : list Item) :
  In i l -> sum_of f l = f i + sum_of f (Set_delete i l).
Proof.
  unfold Set_delete. induction l as [|x l IH]; simpl; intros Hin.
  - contradiction.
  - destruct (Nat.eq_dec i x) as [->|Hne].
    + reflexivity.
    + destruct Hin as [Hx|Hin]; [congruence|].
      simpl. rewrite (IH Hin). lia.
Qed.

Lemma sum_received_bounds (h : Host) (T : Item -> Z) (l : list Item) :
  (forall i, In i l -> 0 <= getReceivedBytes h i <= T i) ->
  0 <= sum_received h l <= sum_of T l.
Proof.
  induction l as [|x l IH]; simpl; intros H.
  - lia.
  - assert (Hx : 0 <= getReceivedBytes h x <= T x) by (apply H; left; reflexivity).
    assert (Hl : 0 <= sum_received h l <= sum_of T l)
      by (apply IH; intros i Hi; apply H; right; exact Hi).
    lia.
Qed.

Lemma filter_item_absent (hs : list Closure) (i : Item) :
  ~ In i (map c_item hs) ->
  filter (fun c => (c_item c =? i)%nat) hs = [].
Proof.
  induction hs as [|a hs IH]; simpl; intros Hi.
  - reflexivity.
  - destruct (Nat.eqb_spec (c_item a) i) as [He|Hne].
    + exfalso. apply Hi. left. exact He.
    + apply IH. intros Hin. apply Hi. right. exact Hin.
Qed.

(** An item whose handlers were installed once has one pair of them. *)
Lemma handlers_of_cases (s : Registration) (i : Item) :
  NoDup (map c_item (handlers s)) ->
  (handlers_of i s = [] /\ ~ In i (map c_item (handlers s)))
  \/ (exists c, handlers_of i s = [c] /\ c_item c = i /\ In c (handlers s)).
Proof.
  unfold handlers_of. induction (handlers s) as [|a hs IH]; simpl; intros Hnd.
  - left. split; [reflexivity | intros []].
  - inversion Hnd as [|x l Ha Hhs]; subst.
    destruct (Nat.eqb_spec (c_item a) i) as [He|Hne].
    + right. exists a. rewrite filter_item_absent by (rewrite <- He; exact Ha).
      repeat split; [exact He | left; reflexivity].
    + destruct (IH Hhs) as [[H1 H2]|(c & H1 & H2 & H3)].
      * left. split; [exact H1|]. intros [Hx|Hx]; [congruence | exact (H2 Hx)].
      * right. exists c. repeat split; [exact H1 | exact H2 | right; exact H3].
Qed.

Lemma run_handlers_single (f : Closure -> M unit) (c : Closure)
      (s : Registration) :
  state_of (run_handlers f [c] s) = state_of (f c s)
  /\ effects_of (run_handlers f [c] s) = effects_of (f c s).
Proof.
  rewrite run_handlers_cons. simpl.
  destruct (f c s) as [[s1 fx1] [[]|]]; unfold state_of, effects_of; simpl;
    rewrite ?app_nil_r; split; reflexivity.
Qed.

(** [Members] reads the handlers and the set only, [Counted] the set,
    completedBytes and totalBytes. *)
Lemma Members_ext (started finished : list Item) (s s' : Registration) :
  handlers s' = handlers s -> downloadItems s' = downloadItems s ->
  Members started finished s -> Members started finished s'.
Proof.
  unfold Members. intros -> ->. exact (fun H => H).
Qed.

Lemma Counted_ext (T : Item -> Z) (s s' : Registration) :
  downloadItems s' = downloadItems s ->
  completedBytes s' = completedBytes s -> totalBytes s' = totalBytes s ->
  Counted T s -> Counted T s'.
Proof.
  unfold Counted. intros -> -> ->. exact (fun H => H).
Qed.

Lemma Members_start_ignored (started finished : list Item) (i : Item)
      (s : Registration) :
  Members started finished s -> Members (i :: started) finished s.
Proof.
  unfold Members. intros (H1 & H2 & H3 & H4 & H5).
  refine (conj _ (conj _ (conj H3 (conj H4 H5)))).
  - intros x Hx. right. exact (H1 x Hx).
  - intros x Hx. right. exact (H2 x Hx).
Qed.

Lemma Members_not_started (started finished : list Item) (i : Item)
      (s : Registration) :
  Members started finished s -> ~ In i started ->
  ~ In i (map c_item (handlers s)) /\ ~ In i (downloadItems s).
Proof.
  intros (H1 & H2 & H3 & H4 & H5) Hi.
  assert (HiH : ~ In i (map c_item (handlers s))).
  { intros Hin. exact (Hi (H2 i Hin)). }
  split; [exact HiH|].
  intros Hin. apply H5 in Hin. exact (HiH (proj1 Hin)).
Qed.

Section Sequences.

Variable path_join : string -> string -> string.
Variable path_extname : string -> string.
Variable extName_mime : string -> list ExtEntry.
Variable pupa : string -> string -> string.

Lemma listener_Members (started finished : list Item) (h : Host) (i : Item)
      (wc : WebContents) (s : Registration) :
  ~ In i started ->
  Members started finished s ->
  Members (i :: started) finished
    (state_of (listener path_join path_extname extName_mime h i wc s)).
Proof.
  intros Hi Hs.
  destruct (Members_not_started started finished i s Hs Hi) as [HiH HiD].
  destruct Hs as (H1 & H2 & H3 & H4 & H5).
  rewrite listener_run. unfold state_of, Members; simpl.
  rewrite (Set_add_new i (downloadItems s) HiD).
  rewrite map_app. simpl.
  refine (conj _ (conj _ (conj _ (conj _ _)))).
  - intros x Hx. right. exact (H1 x Hx).
  - intros x Hx. apply in_app_or in Hx.
    destruct Hx as [Hx|[Hx|[]]]; [right; exact (H2 x Hx) | left; exact Hx].
  - apply NoDup_app; [exact H3 | repeat constructor; intros [] | ].
    intros x Hx [Hxi|[]]. subst x. exact (HiH Hx).
  - apply NoDup_app; [exact H4 | repeat constructor; intros [] | ].
    intros x Hx [Hxi|[]]. subst x. exact (HiD Hx).
  - intros x. split.
    + intros Hx. apply in_app_or in Hx. destruct Hx as [Hx|[Hx|[]]].
      * apply H5 in Hx. destruct Hx as [Ha Hb].
        split; [apply in_or_app; left; exact Ha | exact Hb].
      * subst x. split; [apply in_or_app; right; left; reflexivity|].
        intros Hf. exact (Hi (H1 i Hf)).
    + intros [Hx Hf]. apply in_or_app. apply in_app_or in Hx.
      destruct Hx as [Hx|Hx]; [left; apply H5; split; assumption | right; exact Hx].
Qed.

Lemma listener_Counted (T : Item -> Z) (h : Host) (i : Item)
      (wc : WebContents) (s : Registration) :
  (forall j, getTotalBytes h j = T j) -> ~ In i (downloadItems s) ->
  Counted T s ->
  Counted T (state_of (listener path_join path_extname extName_mime h i wc s)).
Proof.
  intros HT HiD [H6 H7].
  rewrite listener_run. unfold state_of, Counted; simpl.
  rewrite (Set_add_new i (downloadItems s) HiD).
  split; [|exact H7].
  rewrite sum_of_app, H6, HT. simpl. lia.
Qed.

Lemma updated_handlers_keep (P : Registration -> Prop) (h : Host)
      (cs : list Closure) (s : Registration) :
  (forall x v, P x -> P (set_receivedBytes v x)) ->
  P s -> P (state_of (run_handlers (updated_handler h) cs s)).
Proof.
  intros HP. apply (run_handlers_preserves P).
  intros c x Hx. rewrite updated_handler_run.
  destruct (window_ c); apply HP; exact Hx.
Qed.

(** The states a 'done' handler can end in. *)
Lemma done_handler_states (h : Host) (state : DoneState) (c : Closure)
      (s : Registration) :
  let s1 := after_eviction h c s in
  exists s2,
    state_of (done_handler path_join pupa h state c s) = s2
    /\ handlers s2 = handlers s1 /\ downloadItems s2 = downloadItems s1
    /\ ((completedBytes s2 = completedBytes s1 /\ totalBytes s2 = totalBytes s1)
        \/ (downloadItems s1 = []
            /\ completedBytes s2 = 0 /\ totalBytes s2 = 0)).
Proof.
  intros s1. rewrite done_handler_run. unfold state_of. fold s1.
  destruct (window_ c) as [w|]; cbv zeta; cbn [fst].
  - destruct (negb (isDestroyed h w) && _) eqn:E.
    + apply andb_true_iff in E. destruct E as [_ E].
      apply Nat.eqb_eq in E. apply length_zero_iff_nil in E.
      eexists. split; [reflexivity|].
      destruct (unregisters (options s)); simpl;
        (split; [reflexivity|]; split; [reflexivity|]; right;
         split; [exact E|]; split; reflexivity).
    + eexists. split; [reflexivity|].
      destruct (unregisters (options s)); simpl;
        (split; [reflexivity|]; split; [reflexivity|]; left;
         split; reflexivity).
  - exists s1. split; [reflexivity|]. split; [reflexivity|].
    split; [reflexivity|]. left. split; reflexivity.
Qed.

Lemma done_handler_Members (started finished : list Item) (h : Host)
      (state : DoneState) (c : Closure) (s : Registration) :
  In (c_item c) started ->
  Members started finished s ->
  Members started (c_item c :: finished)
    (state_of (done_handler path_join pupa h state c s)).
Proof.
  intros Hst (H1 & H2 & H3 & H4 & H5).
  destruct (done_handler_states h state c s) as (s2 & -> & Hh & Hd & _).
  apply (Members_ext _ _ (after_eviction h c s) s2 Hh Hd).
  unfold Members, after_eviction; simpl.
  refine (conj _ (conj H2 (conj H3 (conj _ _)))).
  - intros x [Hx|Hx]; [subst x; exact Hst | exact (H1 x Hx)].
  - apply set_remove_nodup. exact H4.
  - intros x. unfold Set_delete. rewrite (set_remove_iff Nat.eq_dec x _ H4).
    rewrite H5. split.
    + intros [[Ha Hb] Hne]. split; [exact Ha|].
      intros [He|Hf]; [exact (Hne (eq_sym He)) | exact (Hb Hf)].
    + intros [Ha Hb]. split; [split; [exact Ha|] |].
      * intros Hf. apply Hb. right. exact Hf.
      * intros He. apply Hb. left. exact (eq_sym He).
Qed.

Lemma done_handler_Counted (T : Item -> Z) (h : Host) (state : DoneState)
      (c : Closure) (s : Registration) :
  (forall j, getTotalBytes h j = T j) ->
  In (c_item c) (downloadItems s) ->
  Counted T s ->
  Counted T (state_of (done_handler path_join pupa h state c s)).
Proof.
  intros HT HcD [H6 H7].
  destruct (done_handler_states h state c s)
    as (s2 & -> & _ & Hd & [[Hc Ht]|(Hnil & Hc & Ht)]);
    unfold Counted; rewrite Hd, Hc, Ht.
  - unfold after_eviction; simpl. split.
    + rewrite H6, (sum_of_delete T (c_item c) _ HcD), HT. lia.
    + intros Hpos. specialize (H7 Hpos). specialize (Hpos (c_item c)).
      rewrite HT. lia.
  - rewrite Hnil. simpl. split; [reflexivity | intros _; lia].
Qed.

Lemma deliver_done_state (h : Host) (item : Item) (state : DoneState)
      (s : Registration) :
  state_of (deliver path_join path_extname extName_mime pupa h (done item state) s)
  = state_of (run_handlers (done_handler path_join pupa h state)
                           (handlers_of item s) s)
  /\ effects_of (deliver path_join path_extname extName_mime pupa h
                         (done item state) s)
     = effects_of (run_handlers (done_handler path_join pupa h state)
                                (handlers_of item s) s).
Proof.
  unfold deliver. run_monad.
  destruct (run_handlers _ (handlers_of item s) s) as [[s1 fx1] r].
  split; reflexivity.
Qed.

Lemma deliver_updated_effects (h : Host) (item : Item) (s : Registration) :
  effects_of (deliver path_join path_extname extName_mime pupa h (updated item) s)
  = effects_of (run_handlers (updated_handler h) (handlers_of item s) s).
Proof.
  unfold deliver. run_monad.
  destruct (run_handlers _ (handlers_of item s) s) as [[s1 fx1] r].
  reflexivity.
Qed.

(** One event keeps the bookkeeping; the totals are needed for [Counted]
    only. *)
Lemma deliver_bookkeeping (T : Item -> Z) (started finished : list Item)
      (h : Host) (e : Event) (s : Registration) :
  well_formed started finished [(h, e)] ->
  Members started finished s ->
  exists started' finished',
    (forall tr, well_formed started finished ((h, e) :: tr) ->
                well_formed started' finished' tr)
    /\ (forall i, In i finished' <-> In i (done_items [(h, e)]) \/ In i finished)
    /\ Members started' finished'
         (state_of (deliver path_join path_extname extName_mime pupa h e s))
    /\ ((forall j, getTotalBytes h j = T j) -> Counted T s ->
        Counted T
          (state_of (deliver path_join path_extname extName_mime pupa h e s))).
Proof.
  intros Hwf Hs. destruct e as [i wc|i|i state]; simpl in Hwf.
  - destruct Hwf as [Hi _].
    exists (i :: started), finished. split; [intros tr Htr; apply Htr|].
    split; [simpl; intuition|].
    destruct (Members_not_started started finished i s Hs Hi) as [_ HiD].
    unfold deliver. run_monad. destruct (listening s).
    + pose proof (listener_Members started finished h i wc s Hi Hs) as H.
      pose proof (fun HT => listener_Counted T h i wc s HT HiD) as H'.
      destruct (listener _ _ _ h i wc s) as [[s1 fx1] r].
      split; [exact H | exact H'].
    + split; [apply Members_start_ignored; exact Hs | intros _ Hc; exact Hc].
  - exists started, finished. split; [intros tr Htr; apply Htr|].
    split; [simpl; intuition|].
    rewrite deliver_updated_state. split.
    + apply updated_handlers_keep; [intros x v Hx; exact Hx | exact Hs].
    + intros _ Hc.
      apply updated_handlers_keep; [intros x v Hx; exact Hx | exact Hc].
  - destruct Hwf as (Hst & Hnf & _).
    exists started, (i :: finished). split; [intros tr Htr; apply Htr|].
    split; [simpl; intuition|].
    rewrite (proj1 (deliver_done_state h i state s)).
    pose proof Hs as (H1 & H2 & H3 & H4 & H5).
    destruct (handlers_of_cases s i H3) as [[He Hno]|(c & He & Hc & Hin)];
      rewrite He.
    + unfold state_of; simpl. split; [|intros _ Hc; exact Hc].
      refine (conj _ (conj H2 (conj H3 (conj H4 _)))).
      * intros x [Hx|Hx]; [subst x; exact Hst | exact (H1 x Hx)].
      * intros x. rewrite H5. split.
        -- intros [Ha Hb]. split; [exact Ha|].
           intros [Hx|Hx]; [subst x; exact (Hno Ha) | exact (Hb Hx)].
        -- intros [Ha Hb]. split; [exact Ha|]. intros Hx. apply Hb. right. exact Hx.
    + rewrite (proj1 (run_handlers_single _ c s)). subst i. split.
      * apply done_handler_Members; assumption.
      * intros HT Hcount. apply done_handler_Counted; try assumption.
        apply H5. split; [apply in_map; exact Hin | exact Hnf].
Qed.

Lemma run_Members (tr : list (Host * Event)) :
  forall started finished s,
    well_formed started finished tr ->
    Members started finished s ->
    exists started' finished',
      (forall i, In i finished' <-> In i (done_items tr) \/ In i finished)
      /\ Members started' finished'
           (fst (run path_join path_extname extName_mime pupa tr s))
      /\ forall T, same_totals T tr -> Counted T s ->
           Counted T (fst (run path_join path_extname extName_mime pupa tr s)).
Proof.
  induction tr as [|[h e] tr IH]; intros started finished s Hwf Hs.
  - exists started, finished. split; [simpl; intuition|].
    split; [exact Hs | intros T _ Hc; exact Hc].
  - assert (Hwf1 : well_formed started finished [(h, e)]).
    { destruct e; simpl in *; intuition. }
    assert (Hd : forall T, exists started' finished',
               (forall tr, well_formed started finished ((h, e) :: tr) ->
                           well_formed started' finished' tr)
               /\ (forall i, In i finished' <->
                             In i (done_items [(h, e)]) \/ In i finished)
               /\ Members started' finished'
                    (state_of (deliver path_join path_extname extName_mime
                                       pupa h e s))
               /\ ((forall j, getTotalBytes h j = T j) -> Counted T s ->
                   Counted T
                     (state_of (deliver path_join path_extname extName_mime
                                        pupa h e s)))).
    { intros T. exact (deliver_bookkeeping T started finished h e s Hwf1 Hs). }
    cbn [run].
    destruct (deliver path_join path_extname extName_mime pupa h e s)
      as [[s1 fx1] r1].
    unfold state_of in Hd; simpl in Hd.
    destruct (Hd (fun _ => 0)) as (st1 & fi1 & Hnext & Hfi1 & Hs1 & _).
    destruct (IH st1 fi1 s1 (Hnext tr Hwf) Hs1) as (st2 & fi2 & Hfi2 & Hs2 & Hc2).
    destruct (run path_join path_extname extName_mime pupa tr s1) as [s2 fx2].
    exists st2, fi2. split; [|split; [exact Hs2|]].
    + intros i. rewrite Hfi2, Hfi1. destruct e; simpl; intuition.
    + intros T HT Hc. simpl in *. apply (Hc2 T).
      * intros h' e' Hin. exact (HT h' e' (or_intror Hin)).
      * destruct (Hd T) as (_ & _ & _ & _ & _ & Hc1).
        apply Hc1; [exact (HT h e (or_introl eq_refl)) | exact Hc].
Qed.

Lemma registerListener_Members (h0 : Host) (o : Options) :
  Members (initially_started o) []
          (state_of (registerListener path_join path_extname extName_mime h0 o)).
Proof.
  assert (Hfresh : forall o', Members [] [] (fresh o')).
  { intros o'. unfold Members; simpl.
    refine (conj _ (conj _ (conj _ (conj _ _)))).
    - intros x [].
    - intros x [].
    - constructor.
    - constructor.
    - intros i. split; [intros [] | intros [[] _]]. }
  unfold registerListener, initially_started.
  change (webview (resolve_options o)) with (webview o).
  destruct (webview o) as [wv|].
  - apply listener_Members; [intros [] | apply Hfresh].
  - exact (Members_ext _ _ _ _ eq_refl eq_refl (Hfresh (resolve_options o))).
Qed.

Lemma registerListener_Counted (T : Item -> Z) (h0 : Host) (o : Options) :
  (forall j, getTotalBytes h0 j = T j) ->
  Counted T (state_of (registerListener path_join path_extname extName_mime h0 o)).
Proof.
  intros HT.
  assert (Hfresh : forall o', Counted T (fresh o')).
  { intros o'. unfold Counted; simpl. split; [reflexivity | intros _; lia]. }
  unfold registerListener.
  destruct (webview (resolve_options o)) as [wv|].
  - apply listener_Counted; [exact HT | intros [] | apply Hfresh].
  - exact (Counted_ext T _ _ eq_refl eq_refl eq_refl (Hfresh (resolve_options o))).
Qed.

(** *** The byte counters over a whole event sequence *)

Lemma sum_of_nonneg (T : Item -> Z) (l : list Item) :
  (forall i, 0 <= T i) -> 0 <= sum_of T l.
Proof.
  intros Hpos. induction l as [|x l IH]; simpl; [lia|].
  specialize (Hpos x). lia.
Qed.

(** An event raises totalBytes by the total of the item it starts, at
    most. *)
Lemma deliver_totalBytes_bound (T : Item -> Z) (h : Host) (e : Event)
      (s : Registration) :
  (forall i, 0 <= T i) -> (forall j, getTotalBytes h j = T j) ->
  0 <= totalBytes s ->
  0 <= totalBytes (state_of (deliver path_join path_extname extName_mime
                                     pupa h e s))
    <= totalBytes s + started_total T [(h, e)].
Proof.
  intros Hpos HT Hs. destruct e as [i wc|i|i state]; cbn [started_total].
  - unfold deliver. run_monad. destruct (listening s).
    + rewrite listener_run. unfold state_of; simpl.
      rewrite HT. specialize (Hpos i). lia.
    + unfold state_of; simpl. specialize (Hpos i). lia.
  - rewrite deliver_updated_state.
    pose proof (updated_handlers_keep (fun x => totalBytes x = totalBytes s) h
                  (handlers_of i s) s (fun x v Hx => Hx) eq_refl) as H.
    simpl in H. rewrite H. lia.
  - rewrite (proj1 (deliver_done_state h i state s)).
    assert (H : 0 <= totalBytes
                       (state_of (run_handlers (done_handler path_join pupa h state)
                                               (handlers_of i s) s))
                <= totalBytes s).
    { apply (run_handlers_preserves
               (fun x => 0 <= totalBytes x <= totalBytes s)); [|lia].
      intros c x Hx.
      destruct (done_handler_states h state c x)
        as (s2 & -> & _ & _ & [[_ Ht]|(_ & _ & Ht)]); rewrite Ht.
      - exact Hx.
      - lia. }
    lia.
Qed.

Lemma run_totalBytes_bound (T : Item -> Z) (tr : list (Host * Event)) :
  (forall i, 0 <= T i) -> same_totals T tr ->
  forall s, 0 <= totalBytes s ->
    0 <= totalBytes (fst (run path_join path_extname extName_mime pupa tr s))
      <= totalBytes s + started_total T tr.
Proof.
  intros Hpos. induction tr as [|[h e] tr IH]; intros HT s Hs.
  - simpl. lia.
  - pose proof (deliver_totalBytes_bound T h e s Hpos
                  (HT h e (or_introl eq_refl)) Hs) as H1.
    cbn [run].
    destruct (deliver path_join path_extname extName_mime pupa h e s)
      as [[s1 fx1] r1].
    unfold state_of in H1; cbn [fst] in H1.
    pose proof (IH (fun h' e' Hin => HT h' e' (or_intror Hin)) s1 (proj1 H1))
      as H2.
    destruct (run path_join path_extname extName_mime pupa tr s1) as [s2 fx2].
    cbn [fst] in *.
    assert (Hst : started_total T ((h, e) :: tr)
                  = started_total T [(h, e)] + started_total T tr).
    { destruct e; simpl; lia. }
    rewrite Hst. lia.
Qed.

Lemma registerListener_totalBytes (T : Item -> Z) (h0 : Host) (o : Options) :
  (forall j, getTotalBytes h0 j = T j) ->
  totalBytes (state_of (registerListener path_join path_extname extName_mime
                                         h0 o))
  = sum_of T (initially_started o).
Proof.
  intros HT. unfold registerListener, initially_started.
  change (webview (resolve_options o)) with (webview o).
  destruct (webview o) as [wv|].
  - rewrite listener_run. unfold state_of; simpl. rewrite HT. lia.
  - reflexivity.
Qed.

(** X1.  Over every well-formed event sequence (an item starts at most
    once and finishes at most once, after its start) in which the hosts
    report constant, non-negative totals whose sum over all the items
    started stays below 2^53 (so that the additions of the counters are
    exact on JavaScript numbers), a registration keeps totalBytes equal to
    completedBytes plus the totals of the items in its set, through ignored
    starts, throwing handlers and counter resets alike; both counters stay
    between 0 and that sum. *)
Theorem totalBytes_is_completed_plus_active
        (T : Item -> Z) (h0 : Host) (o : Options) (tr : list (Host * Event)) :
  (forall i, 0 <= T i) ->
  (forall i, getTotalBytes h0 i = T i) -> same_totals T tr ->
  well_formed (initially_started o) [] tr ->
  sum_of T (initially_started o) + started_total T tr < 2 ^ 53 ->
  let s := fst (run path_join path_extname extName_mime pupa tr
                    (state_of (registerListener path_join path_extname
                                                extName_mime h0 o))) in
  totalBytes s = completedBytes s + sum_of T (downloadItems s)
  /\ 0 <= completedBytes s <= totalBytes s
  /\ totalBytes s
     <= sum_of T (initially_started o) + started_total T tr < 2 ^ 53.
Proof.
  intros Hpos HT0 HT Hwf Hbound s.
  destruct (run_Members tr _ _ _ Hwf (registerListener_Members h0 o))
    as (st & fi & _ & _ & Hc).
  destruct (Hc T HT (registerListener_Counted T h0 o HT0)) as [Heq Hcompl].
  fold s in Heq, Hcompl. specialize (Hcompl Hpos).
  pose proof (sum_of_nonneg T (downloadItems s) Hpos) as Hsum.
  pose proof (sum_of_nonneg T (initially_started o) Hpos) as Hinit.
  pose proof (run_totalBytes_bound T tr Hpos HT
                (state_of (registerListener path_join path_extname
                                            extName_mime h0 o))) as Hb.
  rewrite (registerListener_totalBytes T h0 o HT0) in Hb.
  specialize (Hb Hinit). fold s in Hb.
  split; [exact Heq|]. split; lia.
Qed.

(** X2.  Under the same conditions (constant, non-negative totals whose
    sum over the items started is below 2^53, a well-formed sequence), when
    the items in the set have each received between 0 and their total, the
    value an 'updated' tick passes to setProgressBar is the quotient of
    completedBytes plus the received bytes of the set by completedBytes plus
    the totals of the set, with 0 <= numerator <= denominator < 2^53. *)
Theorem aggregate_progress_within_bounds
        (T : Item -> Z) (h0 h : Host) (o : Options)
        (tr : list (Host * Event)) (item : Item) :
  (forall i, 0 <= T i) ->
  (forall i, getTotalBytes h0 i = T i) -> same_totals T tr ->
  well_formed (initially_started o) [] tr ->
  sum_of T (initially_started o) + started_total T tr < 2 ^ 53 ->
  let s := fst (run path_join path_extname extName_mime pupa tr
                    (state_of (registerListener path_join path_extname
                                                extName_mime h0 o))) in
  (forall i, In i (downloadItems s) -> 0 <= getReceivedBytes h i <= T i) ->
  forall w v,
    In (window_setProgressBar w v)
       (effects_of (deliver path_join path_extname extName_mime pupa h
                            (updated item) s)) ->
    exists n d,
      v = Quot n d /\ 0 <= n <= d /\ d < 2 ^ 53
      /\ n = completedBytes s + sum_received h (downloadItems s)
      /\ d = completedBytes s + sum_of T (downloadItems s).
Proof.
  intros Hpos HT0 HT Hwf Hbound s Hrecv w v Hin.
  destruct (run_Members tr _ _ _ Hwf (registerListener_Members h0 o))
    as (st & fi & _ & Hm & Hc).
  destruct (Hc T HT (registerListener_Counted T h0 o HT0)) as [Htot Hcompl].
  fold s in Hm, Htot, Hcompl. specialize (Hcompl Hpos).
  pose proof (sum_of_nonneg T (initially_started o) Hpos) as Hinit.
  pose proof (run_totalBytes_bound T tr Hpos HT
                (state_of (registerListener path_join path_extname
                                            extName_mime h0 o))) as Hb.
  rewrite (registerListener_totalBytes T h0 o HT0) in Hb.
  specialize (Hb Hinit). fold s in Hb.
  destruct Hm as (_ & _ & Hnd & _ & _).
  pose proof (sum_received_bounds h T (downloadItems s) Hrecv) as Hsum.
  rewrite deliver_updated_effects in Hin.
  destruct (handlers_of_cases s item Hnd) as [[He _]|(c & He & _ & _)];
    rewrite He in Hin.
  - destruct Hin.
  - rewrite (proj2 (run_handlers_single _ c s)) in Hin.
    rewrite updated_handler_run in Hin. unfold effects_of in Hin.
    assert (Hbadge : ~ In (window_setProgressBar w v)
                       (if badge_enabled h (options s)
                        then [app_badgeCount (List.length (downloadItems s))]
                        else [])).
    { destruct (badge_enabled h (options s)); simpl; intuition discriminate. }
    destruct (window_ c) as [w0|]; simpl in Hin; [|exact (False_ind _ (Hbadge Hin))].
    apply in_app_or in Hin. destruct Hin as [Hin|Hin]; [exact (False_ind _ (Hbadge Hin))|].
    apply in_app_or in Hin. destruct Hin as [Hin|Hin].
    + destruct (isDestroyed h w0); simpl in Hin; [destruct Hin|].
      destruct Hin as [Hin|[]]. injection Hin as _ Hv. subst v.
      exists (completedBytes s + sum_received h (downloadItems s)),
             (totalBytes s).
      split; [reflexivity|]. rewrite Htot. repeat split; lia.
    + destruct (onProgress (options s)); simpl in Hin;
        [destruct Hin as [Hin|[]]; discriminate | destruct Hin].
Qed.

(** X3.  Over every well-formed event sequence, whatever the hosts
    report, the set of a registration never holds an item twice, no item
    has its handlers installed twice, and an item is in the set exactly
    when its handlers are installed and its 'done' has not arrived. *)
Theorem active_set_is_installed_minus_done
        (h0 : Host) (o : Options) (tr : list (Host * Event)) :
  well_formed (initially_started o) [] tr ->
  let s := fst (run path_join path_extname extName_mime pupa tr
                    (state_of (registerListener path_join path_extname
                                                extName_mime h0 o))) in
  NoDup (downloadItems s)
  /\ NoDup (map c_item (handlers s))
  /\ (forall i, In i (downloadItems s) <->
                In i (map c_item (handlers s)) /\ ~ In i (done_items tr)).
Proof.
  intros Hwf s.
  destruct (run_Members tr _ _ _ Hwf (registerListener_Members h0 o))
    as (st & fi & Hfi & Hm & _).
  fold s in Hm. destruct Hm as (_ & _ & H3 & H4 & H5).
  split; [exact H4|]. split; [exact H3|].
  intros i. rewrite H5, Hfi. simpl. intuition.
Qed.

(** *** Calls that are never made *)

Lemma run_handlers_inv (P : Registration -> Prop) (k : Effect -> bool)
      (f : Closure -> M unit) :
  (forall c x, P x -> P (state_of (f c x)) /\ none_of k (effects_of (f c x))) ->
  forall cs s, P s ->
    P (state_of (run_handlers f cs s))
    /\ none_of k (effects_of (run_handlers f cs s)).
Proof.
  intros Hf. induction cs as [|c cs IH]; intros s Hs.
  - split; [exact Hs | reflexivity].
  - rewrite run_handlers_cons.
    destruct (Hf c s Hs) as [H1 H2].
    destruct (f c s) as [[s1 fx1] [[]|]].
    + destruct (IH s1 H1) as [H3 H4].
      destruct (run_handlers f cs s1) as [[s2 fx2] r].
      unfold state_of, effects_of in *; simpl in *.
      split; [exact H3 | apply none_of_app; split; assumption].
    + split; assumption.
Qed.

(** A property of the state and a kind of call: when the three handlers
    keep the one and do not make the other, so does every sequence of
    events. *)
Lemma run_inv (P : Registration -> Prop) (k : Effect -> bool)
      (tr : list (Host * Event)) :
  (forall h e, In (h, e) tr ->
     (forall i wc x, P x ->
        P (state_of (listener path_join path_extname extName_mime h i wc x))
        /\ none_of k (effects_of (listener path_join path_extname extName_mime
                                           h i wc x)))
     /\ (forall c x, P x ->
           P (state_of (updated_handler h c x))
           /\ none_of k (effects_of (updated_handler h c x)))
     /\ (forall state c x, P x ->
           P (state_of (done_handler path_join pupa h state c x))
           /\ none_of k (effects_of (done_handler path_join pupa h state c x)))) ->
  forall s, P s ->
    P (fst (run path_join path_extname extName_mime pupa tr s))
    /\ none_of k (snd (run path_join path_extname extName_mime pupa tr s)).
Proof.
  induction tr as [|[h e] tr IH]; intros Hh s Hs.
  - split; [exact Hs | reflexivity].
  - destruct (Hh h e (or_introl eq_refl)) as (Hl & Hu & Hd).
    assert (Hstep : P (state_of (deliver path_join path_extname extName_mime
                                         pupa h e s))
                    /\ none_of k (effects_of (deliver path_join path_extname
                                                      extName_mime pupa h e s))).
    { destruct e as [i wc|i|i state]; unfold deliver; run_monad.
      - destruct (listening s).
        + specialize (Hl i wc s Hs).
          destruct (listener _ _ _ h i wc s) as [[s1 fx1] r]. exact Hl.
        + split; [exact Hs | reflexivity].
      - pose proof (run_handlers_inv P k _ Hu (handlers_of i s) s Hs) as H.
        destruct (run_handlers _ _ s) as [[s1 fx1] r]. exact H.
      - pose proof (run_handlers_inv P k _ (Hd state) (handlers_of i s) s Hs) as H.
        destruct (run_handlers _ _ s) as [[s1 fx1] r]. exact H. }
    cbn [run].
    destruct (deliver path_join path_extname extName_mime pupa h e s)
      as [[s1 fx1] r1].
    destruct Hstep as [H1 H2]. unfold state_of, effects_of in H1, H2; simpl in H1, H2.
    destruct (IH (fun h' e' Hin => Hh h' e' (or_intror Hin)) s1 H1) as [H3 H4].
    destruct (run path_join path_extname extName_mime pupa tr s1) as [s2 fx2].
    simpl in *. split; [exact H3 | apply none_of_app; split; assumption].
Qed.

Lemma done_handler_options (h : Host) (state : DoneState) (c : Closure)
      (s : Registration) :
  options (state_of (done_handler path_join pupa h state c s)) = options s.
Proof.
  rewrite done_handler_run. unfold state_of.
  destruct (window_ c) as [w|]; cbv zeta; cbn [fst]; [|reflexivity].
  destruct (negb (isDestroyed h w) && _);
    destruct (unregisters (options s)); reflexivity.
Qed.

Lemma updated_handler_options (h : Host) (c : Closure) (s : Registration) :
  options (state_of (updated_handler h c s)) = options s.
Proof.
  rewrite updated_handler_run. destruct (window_ c); reflexivity.
Qed.

Lemma dispatch_not (k : Effect -> bool) (h : Host) (state : DoneState)
      (c : Closure) (o : Options) :
  (forall f i, k (call_onCancel f i) = false) ->
  (forall t m, k (dialog_showErrorBox t m) = false) ->
  (forall e i, k (call_callback e i) = false) ->
  (forall p, k (app_dock_downloadFinished p) = false) ->
  (forall p, k (shell_showItemInFolder p) = false) ->
  none_of k (dispatch path_join pupa h state c o).
Proof.
  intros K1 K2 K3 K4 K5. unfold none_of, dispatch.
  destruct state; simpl.
  - destruct (platform h =? "darwin")%string;
      destruct (truthy_bool (openFolderWhenDone o)); simpl;
      rewrite ?K3, ?K4, ?K5; reflexivity.
  - destruct (onCancel o); simpl; rewrite ?K1; reflexivity.
  - rewrite K2, K3. reflexivity.
Qed.

(** X4.  Whenever an 'updated' or a 'done' handler sets app.badgeCount,
    showBadge and the platform (darwin or linux) allow it and the count is
    the size of the set as the handler leaves it; and when they allow it,
    each run sets the badge, a run that goes on to throw included. *)
Theorem badgeCount_is_size_of_set
        (h : Host) (state : DoneState) (c : Closure) (s : Registration) :
  let ru := updated_handler h c s in
  let rd := done_handler path_join pupa h state c s in
  (forall n, In (app_badgeCount n) (effects_of ru) ->
     badge_enabled h (options s) = true
     /\ n = List.length (downloadItems (state_of ru)))
  /\ (forall n, In (app_badgeCount n) (effects_of rd) ->
      badge_enabled h (options s) = true
      /\ n = List.length (downloadItems (state_of rd)))
  /\ (badge_enabled h (options s) = true ->
      In (app_badgeCount (List.length (downloadItems (state_of ru))))
         (effects_of ru)
      /\ In (app_badgeCount (List.length (downloadItems (state_of rd))))
            (effects_of rd)).
Proof.
  intros ru rd.
  assert (Hdl : downloadItems (state_of rd)
                = Set_delete (c_item c) (downloadItems s)).
  { destruct (done_handler_states h state c s) as (s2 & Hs2 & _ & Hd & _).
    unfold rd. rewrite Hs2. exact Hd. }
  assert (Hul : downloadItems (state_of ru) = downloadItems s).
  { unfold ru. rewrite updated_handler_run. destruct (window_ c); reflexivity. }
  rewrite Hdl, Hul. unfold ru, rd. clear ru rd Hdl Hul.
  rewrite updated_handler_run, done_handler_run. unfold effects_of.
  split; [|split].
  - intros n Hin. destruct (badge_enabled h (options s)).
    + destruct (window_ c) as [w|]; simpl in Hin.
      * destruct Hin as [Hin|Hin]; [injection Hin as Hn; subst n; auto|].
        exfalso. destruct (isDestroyed h w); destruct (onProgress (options s));
          simpl in Hin; intuition discriminate.
      * destruct Hin as [Hin|[]]. injection Hin as Hn. subst n. auto.
    + exfalso. destruct (window_ c) as [w|]; simpl in Hin; [|exact Hin].
      destruct (isDestroyed h w); destruct (onProgress (options s));
        simpl in Hin; intuition discriminate.
  - intros n Hin.
    assert (Hrest : forall (w : Win) (b1 : bool),
              ~ In (app_badgeCount n)
                   ((if b1 then [window_setProgressBar w (Int (-1))] else [])
                    ++ (if unregisters (options s)
                        then [session_removeListener] else [])
                    ++ dispatch path_join pupa h state c (options s))).
    { intros w b1 Hx.
      assert (Hk : none_of is_badgeCount
                     ((if b1 then [window_setProgressBar w (Int (-1))] else [])
                      ++ (if unregisters (options s)
                          then [session_removeListener] else [])
                      ++ dispatch path_join pupa h state c (options s))).
      { apply none_of_app. split; [destruct b1; reflexivity|].
        apply none_of_app. split;
          [destruct (unregisters (options s)); reflexivity|].
        apply dispatch_not; reflexivity. }
      unfold none_of in Hk. rewrite forallb_forall in Hk.
      specialize (Hk _ Hx). discriminate. }
    destruct (badge_enabled h (options s)).
    + destruct (window_ c) as [w|]; cbv zeta in Hin; cbn [fst snd] in Hin.
      * simpl in Hin. destruct Hin as [Hin|Hin]; [injection Hin as Hn; subst n; auto|].
        exfalso. exact (Hrest _ _ Hin).
      * simpl in Hin. destruct Hin as [Hin|[]]. injection Hin as Hn. subst n. auto.
    + exfalso. destruct (window_ c) as [w|]; cbv zeta in Hin; cbn [fst snd] in Hin.
      * simpl in Hin. exact (Hrest _ _ Hin).
      * exact Hin.
  - intros Hb. rewrite Hb.
    destruct (window_ c) as [w|]; split; left; reflexivity.
Qed.

(** X5.  When showBadge is off or the platform is neither darwin nor
    linux, for all the hosts of a sequence of events, no event of the
    sequence sets app.badgeCount. *)
Theorem badgeCount_never_set_when_disabled
        (tr : list (Host * Event)) (s : Registration) :
  (forall h e, In (h, e) tr -> badge_enabled h (options s) = false) ->
  none_of is_badgeCount
    (snd (run path_join path_extname extName_mime pupa tr s)).
Proof.
  intros Hoff.
  refine (proj2 (run_inv (fun x => options x = options s) is_badgeCount tr
                         _ s eq_refl)).
  intros h e Hin. specialize (Hoff h e Hin). split; [|split].
  - intros i wc x Hx. rewrite listener_options. split; [exact Hx|].
    rewrite listener_run. unfold effects_of; simpl.
    destruct (truthy_bool (saveAs (options x)));
      destruct (onStarted (options x)); reflexivity.
  - intros c x Hx. rewrite updated_handler_options. split; [exact Hx|].
    rewrite updated_handler_run, Hx, Hoff. unfold effects_of.
    destruct (window_ c) as [w|]; simpl; [|reflexivity].
    destruct (isDestroyed h w); destruct (onProgress (options s)); reflexivity.
  - intros state c x Hx. rewrite done_handler_options. split; [exact Hx|].
    rewrite done_handler_run, Hx, Hoff. unfold effects_of.
    destruct (window_ c) as [w|]; cbv zeta; cbn [fst snd]; [|reflexivity].
    apply none_of_app. split; [reflexivity|].
    apply none_of_app. split; [destruct (negb _ && _); reflexivity|].
    apply none_of_app. split;
      [destruct (unregisters (options s)); reflexivity|].
    apply dispatch_not; reflexivity.
Qed.

Lemma listener_not (k : Effect -> bool) (h : Host) (i : Item)
      (wc : WebContents) (s : Registration) :
  (forall j p, k (item_setSavePath j p) = false
               \/ truthy_bool (saveAs (options s)) = true) ->
  (forall f j, k (call_onStarted f j) = false) ->
  none_of k (effects_of (listener path_join path_extname extName_mime h i wc s)).
Proof.
  intros K1 K2. rewrite listener_run. unfold effects_of. cbn [fst snd].
  apply none_of_app. split.
  - destruct (truthy_bool (saveAs (options s))) eqn:E; [reflexivity|].
    destruct (K1 i (filePath (closure_for path_join path_extname extName_mime
                                          h (options s) i wc))) as [K|K];
      [|congruence].
    unfold none_of. cbn [forallb]. rewrite K. reflexivity.
  - destruct (onStarted (options s)); unfold none_of; cbn [forallb];
      rewrite ?K2; reflexivity.
Qed.

Lemma updated_not (k : Effect -> bool) (h : Host) (c : Closure)
      (s : Registration) :
  (forall n, k (app_badgeCount n) = false) ->
  (forall w v, k (window_setProgressBar w v) = false) ->
  (forall f p, k (call_onProgress f p) = false) ->
  none_of k (effects_of (updated_handler h c s)).
Proof.
  intros K1 K2 K3. rewrite updated_handler_run. unfold effects_of, none_of.
  destruct (window_ c) as [w|]; simpl;
    destruct (badge_enabled h (options s)); simpl; rewrite ?K1; try reflexivity;
    destruct (isDestroyed h w); simpl; rewrite ?K2;
    destruct (onProgress (options s)); simpl; rewrite ?K3; reflexivity.
Qed.

Lemma done_not (k : Effect -> bool) (h : Host) (state : DoneState)
      (c : Closure) (s : Registration) :
  (forall n, k (app_badgeCount n) = false) ->
  (forall w v, k (window_setProgressBar w v) = false) ->
  (k session_removeListener = false \/ unregisters (options s) = false) ->
  none_of k (dispatch path_join pupa h state c (options s)) ->
  none_of k (effects_of (done_handler path_join pupa h state c s)).
Proof.
  intros K1 K2 K3 K4. rewrite done_handler_run. unfold effects_of.
  destruct (window_ c) as [w|]; cbv zeta; cbn [fst snd].
  - apply none_of_app. split; [apply badge_not, K1|].
    apply none_of_app. split.
    { destruct (negb _ && _); unfold none_of; simpl; rewrite ?K2; reflexivity. }
    apply none_of_app. split; [|exact K4].
    destruct K3 as [K3|K3].
    + destruct (unregisters (options s)); unfold none_of; simpl;
        rewrite ?K3; reflexivity.
    + rewrite K3. reflexivity.
  - apply badge_not, K1.
Qed.

(** X6.  With saveAs set, no event of any sequence makes the program call
    item.setSavePath: the path is left to the host's dialog.  Without it, a
    start event handled by a listening registration calls setSavePath
    first, with the path computed for the item, and then onStarted if
    supplied, and nothing else. *)
Theorem saveAs_leaves_the_path_to_the_host
        (tr : list (Host * Event)) (s : Registration) :
  (truthy_bool (saveAs (options s)) = true ->
   none_of is_setSavePath
     (snd (run path_join path_extname extName_mime pupa tr s)))
  /\ (forall h i wc,
      truthy_bool (saveAs (options s)) = false -> listening s = true ->
      effects_of (deliver path_join path_extname extName_mime pupa h
                          (will_download i wc) s)
      = item_setSavePath i
          (filePath (closure_for path_join path_extname extName_mime
                                 h (options s) i wc))
        :: match onStarted (options s) with
           | Some f => [call_onStarted f i]
           | None => []
           end).
Proof.
  split.
  - intros Hsave.
    refine (proj2 (run_inv (fun x => options x = options s) is_setSavePath tr
                           _ s eq_refl)).
    intros h e _. split; [|split].
    + intros i wc x Hx. rewrite listener_options. split; [exact Hx|].
      apply listener_not; [|reflexivity].
      intros j p. right. rewrite Hx. exact Hsave.
    + intros c x Hx. rewrite updated_handler_options. split; [exact Hx|].
      apply updated_not; reflexivity.
    + intros state c x Hx. rewrite done_handler_options. split; [exact Hx|].
      apply done_not; try reflexivity; [left; reflexivity|].
      apply dispatch_not; reflexivity.
  - intros h i wc Hsave Hl. unfold deliver. run_monad.
    rewrite Hl, listener_run, Hsave. reflexivity.
Qed.

(** X7.  A registration made without the webview option and without
    unregisterWhenDone subscribes to 'will-download' once and never calls
    removeListener: after any sequence of events it is still listening, and
    the next start event is tracked. *)
Theorem registration_without_unregisterWhenDone_persists
        (h0 : Host) (o : Options) (tr : list (Host * Event)) :
  webview o = None -> truthy_bool (unregisterWhenDone o) = false ->
  let r0 := registerListener path_join path_extname extName_mime h0 o in
  let s := fst (run path_join path_extname extName_mime pupa tr (state_of r0)) in
  effects_of r0 = [session_on]
  /\ listening s = true
  /\ none_of is_session_call
       (snd (run path_join path_extname extName_mime pupa tr (state_of r0)))
  /\ (forall h i wc,
      In i (downloadItems
              (state_of (deliver path_join path_extname extName_mime pupa h
                                 (will_download i wc) s)))).
Proof.
  intros Hwv Hflag r0 s.
  assert (Hr0 : r0 = (set_listening true (fresh (resolve_options o)),
                      [session_on], Some tt)).
  { unfold r0, registerListener. simpl. rewrite Hwv. reflexivity. }
  assert (Hun : unregisters (resolve_options o) = false).
  { unfold unregisters. simpl. rewrite Hflag. reflexivity. }
  pose proof (run_inv (fun x => options x = resolve_options o
                                /\ listening x = true)
                      is_session_call tr) as H.
  assert (Hinv : (fun x => options x = resolve_options o /\ listening x = true)
                   (fst (run path_join path_extname extName_mime pupa tr
                             (state_of r0)))
                 /\ none_of is_session_call
                      (snd (run path_join path_extname extName_mime pupa tr
                                (state_of r0)))).
  { apply H; [|rewrite Hr0; split; reflexivity].
    intros h e _. split; [|split].
    - intros i wc x [Hx Hl]. rewrite listener_options. split.
      + split; [exact Hx|]. rewrite listener_run. exact Hl.
      + apply listener_not; [intros j p; left|]; reflexivity.
    - intros c x [Hx Hl]. rewrite updated_handler_options. split.
      + split; [exact Hx|]. rewrite updated_handler_run.
        destruct (window_ c); exact Hl.
      + apply updated_not; reflexivity.
    - intros state c x [Hx Hl]. rewrite done_handler_options. split.
      + split; [exact Hx|]. rewrite done_handler_run. unfold state_of.
        rewrite Hx, Hun.
        destruct (window_ c) as [w|]; cbv zeta; cbn [fst]; [|exact Hl].
        destruct (negb _ && _); exact Hl.
      + apply done_not; try reflexivity.
        * right. rewrite Hx. exact Hun.
        * apply dispatch_not; reflexivity. }
  fold s in Hinv. destruct Hinv as [[Ho Hl] Hn].
  split; [rewrite Hr0; reflexivity|]. split; [exact Hl|]. split; [exact Hn|].
  intros h i wc. unfold deliver. run_monad. rewrite Hl, listener_run.
  unfold state_of; simpl. apply (set_add_intro2 Nat.eq_dec). reflexivity.
Qed.

(** X8.  A registration made with the webview option handles the item of
    that option at once (the item is in the set, its total counted, its
    handlers installed with the window of the given web contents) without
    ever subscribing to the session; over every later sequence of events it
    installs no other handlers, stays detached, and calls neither
    session.on, removeListener, setSavePath nor onStarted again, even with
    unregisterWhenDone set. *)
Theorem webview_registration_handles_its_item_only
        (h0 : Host) (o : Options) (wv : Webview) (tr : list (Host * Event)) :
  webview o = Some wv ->
  let r0 := registerListener path_join path_extname extName_mime h0 o in
  let c := closure_for path_join path_extname extName_mime h0
                       (resolve_options o) (wv_item wv) (wv_webContents wv) in
  let s := fst (run path_join path_extname extName_mime pupa tr (state_of r0)) in
  (threw r0 = false /\ none_of is_session_call (effects_of r0))
  /\ (downloadItems (state_of r0) = [wv_item wv]
      /\ totalBytes (state_of r0) = getTotalBytes h0 (wv_item wv)
      /\ handlers (state_of r0) = [c]
      /\ window_ c = owner_window h0 (wv_webContents wv))
  /\ (handlers s = [c] /\ listening s = false)
  /\ (none_of is_session_call
        (snd (run path_join path_extname extName_mime pupa tr (state_of r0)))
      /\ none_of is_listener_call
           (snd (run path_join path_extname extName_mime pupa tr (state_of r0)))).
Proof.
  intros Hwv r0 c s.
  assert (Hr0 : r0 = listener path_join path_extname extName_mime h0
                              (wv_item wv) (wv_webContents wv)
                              (fresh (resolve_options o))).
  { unfold r0, registerListener. simpl. rewrite Hwv. reflexivity. }
  assert (Hun : unregisters (resolve_options o) = false).
  { unfold unregisters. simpl. rewrite Hwv. apply andb_false_r. }
  rewrite listener_run in Hr0.
  assert (Hdet : detached (resolve_options o) [c] (state_of r0)).
  { rewrite Hr0. repeat split. }
  split.
  { rewrite Hr0. split; [reflexivity|]. unfold effects_of; simpl.
    destruct (truthy_bool (saveAs o)); destruct (onStarted o); reflexivity. }
  split.
  { rewrite Hr0. unfold state_of; simpl. repeat split. }
  destruct (run_detached path_join path_extname extName_mime pupa
              (resolve_options o) [c] tr (state_of r0) Hdet)
    as [(Ho & Hh & Hl) Hcalls].
  split; [split; assumption|]. split; [|exact Hcalls].
  refine (proj2 (run_inv (fun x => options x = resolve_options o)
                         is_session_call tr _ (state_of r0) (proj1 Hdet))).
  intros h e _. split; [|split].
  - intros i wc x Hx. rewrite listener_options. split; [exact Hx|].
    apply listener_not; [intros j p; left|]; reflexivity.
  - intros c' x Hx. rewrite updated_handler_options. split; [exact Hx|].
    apply updated_not; reflexivity.
  - intros state c' x Hx. rewrite done_handler_options. split; [exact Hx|].
    apply done_not; try reflexivity.
    + right. rewrite Hx. exact Hun.
    + apply dispatch_not; reflexivity.
Qed.

(** *** Completed items and the promise of download *)

Lemma promise_after_settled (fx : list Effect) (p : Promise) :
  p <> pending -> promise_after fx p = p.
Proof.
  unfold promise_after. induction fx as [|e fx IH]; simpl; intros Hp.
  - reflexivity.
  - assert (He : settle p e = p).
    { destruct e; try reflexivity. simpl.
      destruct p; [congruence | |];
        unfold download_callback; destruct error; reflexivity. }
    rewrite He. exact (IH Hp).
Qed.

Lemma completed_done_resolves (h : Host) (c : Closure) (w : Win)
      (s : Registration) :
  window_ c = Some w ->
  threw (done_handler path_join pupa h completed c s) = false
  /\ promise_after (effects_of (done_handler path_join pupa h completed c s))
                   pending
     = resolved (Some (c_item c)).
Proof.
  intros Hw. rewrite done_handler_run, Hw.
  unfold threw, effects_of. cbv zeta. cbn [fst snd].
  split; [reflexivity|].
  unfold dispatch. rewrite !app_assoc. rewrite promise_after_app.
  rewrite (promise_after_no_callback ((((_ ++ _) ++ _) ++ _) ++ _)).
  - reflexivity.
  - apply none_of_app. split;
      [|destruct (truthy_bool (openFolderWhenDone (options s))); reflexivity].
    apply none_of_app. split;
      [|destruct (platform h =? "darwin")%string; reflexivity].
    rewrite <- !app_assoc. apply done_prefix_not; reflexivity.
Qed.

Lemma interrupted_done_rejects (h : Host) (c : Closure) (w : Win)
      (s : Registration) :
  window_ c = Some w ->
  promise_after (effects_of (done_handler path_join pupa h interrupted c s))
                pending
  = rejected {| message := pupa (c_errorMessage c) (getFilename h (c_item c)) |}.
Proof.
  intros Hw. rewrite done_handler_run, Hw.
  unfold effects_of. cbv zeta. cbn [fst snd].
  unfold dispatch. rewrite !app_assoc. rewrite promise_after_app.
  rewrite (promise_after_no_callback ((_ ++ _) ++ _)).
  - reflexivity.
  - rewrite <- !app_assoc. apply done_prefix_not; reflexivity.
Qed.

(** X9.  When the 'done' handler of an item whose window was resolved runs
    with state 'completed', its last calls are, in this order:
    app.dock.downloadFinished with the save path, on darwin only;
    shell.showItemInFolder, with openFolderWhenDone only; and the callback
    with no error and the item.  It is the handler's only callback call, and
    a pending promise of download is resolved with the item. *)
Theorem completed_notifies_then_calls_back
        (h : Host) (c : Closure) (w : Win) (s : Registration) :
  let r := done_handler path_join pupa h completed c s in
  window_ c = Some w ->
  threw r = false
  /\ (exists pre,
        effects_of r
        = pre
          ++ (if (platform h =? "darwin")%string
              then [app_dock_downloadFinished (filePath c)] else [])
          ++ (if truthy_bool (openFolderWhenDone (options s))
              then [shell_showItemInFolder
                      (path_join (c_directory c) (getFilename h (c_item c)))]
              else [])
          ++ [call_callback None (Some (c_item c))]
        /\ none_of is_callback pre /\ none_of is_dock_call pre
        /\ none_of is_showItemInFolder pre)
  /\ promise_after (effects_of r) pending = resolved (Some (c_item c)).
Proof.
  intros r Hw. subst r. rewrite done_handler_run, Hw.
  unfold threw, effects_of. cbv zeta. cbn [fst snd].
  split; [reflexivity|].
  assert (Hpre : forall k,
             k session_removeListener = false ->
             (forall n, k (app_badgeCount n) = false) ->
             (forall v, k (window_setProgressBar w v) = false) ->
             none_of k
               ((if badge_enabled h (options s)
                 then [app_badgeCount
                         (List.length (downloadItems (after_eviction h c s)))]
                 else [])
                ++ (if negb (isDestroyed h w)
                       && (List.length (downloadItems (after_eviction h c s))
                           =? 0)%nat
                    then [window_setProgressBar w (Int (-1))] else [])
                ++ (if unregisters (options s)
                    then [session_removeListener] else []))).
  { intros k K1 K2 K3. apply done_prefix_not; auto. }
  split.
  - eexists. split.
    + unfold dispatch. rewrite !app_assoc. reflexivity.
    + rewrite <- !app_assoc. repeat split; apply Hpre; reflexivity.
  - unfold dispatch. rewrite !app_assoc. rewrite promise_after_app.
    rewrite (promise_after_no_callback ((((_ ++ _) ++ _) ++ _) ++ _)).
    + reflexivity.
    + rewrite <- !app_assoc. rewrite !app_assoc.
      apply none_of_app. split;
        [|destruct (truthy_bool (openFolderWhenDone (options s))); reflexivity].
      apply none_of_app. split;
        [|destruct (platform h =? "darwin")%string; reflexivity].
      rewrite <- !app_assoc. apply Hpre; reflexivity.
Qed.

Lemma deliver_start_listening (h : Host) (i : Item) (wc : WebContents)
      (s : Registration) :
  listening s = true ->
  deliver path_join path_extname extName_mime pupa h (will_download i wc) s
  = listener path_join path_extname extName_mime h i wc s.
Proof.
  intros Hl. unfold deliver. run_monad. rewrite Hl.
  destruct (listener _ _ _ h i wc s) as [[s1 fx1] r]. reflexivity.
Qed.

Lemma ticks_run (ticks : list (Host * Event)) :
  forallb is_tick ticks = true ->
  forall s,
    handlers (fst (run path_join path_extname extName_mime pupa ticks s))
    = handlers s
    /\ none_of is_callback
         (snd (run path_join path_extname extName_mime pupa ticks s)).
Proof.
  induction ticks as [|[h e] ticks IH]; intros Hall s.
  - split; reflexivity.
  - simpl in Hall. apply andb_true_iff in Hall. destruct Hall as [He Hall].
    destruct e as [i wc|i|i state]; try discriminate He.
    cbn [run].
    pose proof (deliver_updated_state path_join path_extname extName_mime pupa
                  h i s) as Hst.
    pose proof (updated_handlers_keep (fun x => handlers x = handlers s) h
                  (handlers_of i s) s (fun x v Hx => Hx) eq_refl) as Hh.
    rewrite <- Hst in Hh.
    pose proof (deliver_no_callback path_join path_extname extName_mime pupa
                  h (updated i) s) as Hn.
    destruct (deliver path_join path_extname extName_mime pupa h (updated i) s)
      as [[s1 fx1] r1].
    unfold state_of, effects_of in Hh, Hn; simpl in Hh, Hn.
    destruct (IH Hall s1) as [H1 H2].
    destruct (run path_join path_extname extName_mime pupa ticks s1)
      as [s2 fx2].
    simpl in *. split; [congruence|].
    apply none_of_app. split; [|exact H2].
    apply Hn. intros item state Heq. discriminate Heq.
Qed.

(** X10.  download on a BrowserWindow registers a listener with the options
    it built.  When the first item of the session starts in a window that
    is resolved, receives any number of 'updated' ticks and then completes,
    the promise is resolved with that item; when it is interrupted instead,
    the promise is rejected with the formatted message.  Whatever events
    follow, the promise keeps that outcome.  On a webview tag without a
    session for its partition and on any other object, download rejects at
    once and registers nothing. *)
Theorem download_settles_with_the_first_item
        (h0 h1 h2 : Host) (url : string) (o : Options) (item : Item)
        (wc : WebContents) (w : Win) (ticks later : list (Host * Event)) :
  webview o = None -> owner_window h1 wc = Some w ->
  forallb is_tick ticks = true ->
  let r0 := registerListener path_join path_extname extName_mime h0
                             (download_options o) in
  let outcome state :=
    promise_after
      (snd (run path_join path_extname extName_mime pupa
                ((h1, will_download item wc)
                 :: ticks ++ (h2, done item state) :: later)
                (state_of r0)))
      pending in
  download path_join path_extname extName_mime h0 browserWindow url o
  = registered r0 url
  /\ outcome completed = resolved (Some item)
  /\ outcome interrupted
     = rejected
         {| message :=
              pupa (or_else (errorMessage o)
                            "The download of {filename} was interrupted")
                   (getFilename h2 item) |}
  /\ (forall partition,
      exists e,
        download path_join path_extname extName_mime h0
                 (webviewTag partition false) url o
        = rejected_at_once e)
  /\ (exists e,
        download path_join path_extname extName_mime h0 neither url o
        = rejected_at_once e).
Proof.
  intros Hwv Hw Hticks r0 outcome.
  split; [reflexivity|].
  assert (Hr0 : state_of r0
                = set_listening true
                    (fresh (resolve_options (download_options o)))).
  { unfold r0, registerListener. simpl. rewrite Hwv. reflexivity. }
  set (c := closure_for path_join path_extname extName_mime h1
                        (resolve_options (download_options o)) item wc).
  assert (Hmain : forall state,
            exists pre s3,
              none_of is_callback pre
              /\ snd (run path_join path_extname extName_mime pupa
                          ((h1, will_download item wc)
                           :: ticks ++ (h2, done item state) :: later)
                          (state_of r0))
                 = pre
                   ++ effects_of (done_handler path_join pupa h2 state c s3)
                   ++ snd (run path_join path_extname extName_mime pupa later
                               (state_of (done_handler path_join pupa h2
                                                       state c s3)))).
  { intros state. rewrite Hr0.
    change ((h1, will_download item wc)
            :: ticks ++ (h2, done item state) :: later)
      with ([(h1, will_download item wc)]
            ++ ticks ++ [(h2, done item state)] ++ later).
    rewrite run_app. cbn [run].
    rewrite deliver_start_listening by reflexivity.
    rewrite listener_run. cbv zeta. cbn [fst snd]. fold c.
    set (s1 := set_handlers _ _).
    set (fx1 := (_ ++ _) ++ []).
    assert (Hfx1 : none_of is_callback fx1).
    { unfold fx1. rewrite app_nil_r. cbn [options set_listening fresh].
      destruct (truthy_bool _); destruct (onStarted _); reflexivity. }
    assert (Hh1 : handlers s1 = [c]) by reflexivity.
    clearbody s1 fx1.
    rewrite run_app.
    destruct (ticks_run ticks Hticks s1) as [Hh2 Hfx2].
    destruct (run path_join path_extname extName_mime pupa ticks s1)
      as [s2 fx2].
    cbn [fst snd] in Hh2, Hfx2. rewrite Hh1 in Hh2.
    rewrite run_app. cbn [run].
    pose proof (deliver_done_state h2 item state s2) as [Hds Hde].
    unfold handlers_of in Hds, Hde. rewrite Hh2 in Hds, Hde.
    cbn [filter c_item c closure_for] in Hds, Hde.
    rewrite Nat.eqb_refl in Hds, Hde.
    rewrite (proj1 (run_handlers_single _ _ s2)) in Hds.
    rewrite (proj2 (run_handlers_single _ _ s2)) in Hde.
    fold c in Hds, Hde.
    destruct (deliver path_join path_extname extName_mime pupa h2
                      (done item state) s2) as [[s3 fx3] r3].
    unfold state_of, effects_of in Hds, Hde; cbn [fst snd] in Hds, Hde.
    subst s3 fx3.
    exists (fx1 ++ fx2), s2. split; [apply none_of_app; split; assumption|].
    unfold state_of, effects_of.
    destruct (run path_join path_extname extName_mime pupa later _)
      as [s4 fx4].
    cbn [fst snd]. rewrite app_nil_r, <- !app_assoc. reflexivity. }
  assert (Hc : window_ c = Some w) by exact Hw.
  split; [|split].
  - unfold outcome. destruct (Hmain completed) as (pre & s3 & Hpre & ->).
    rewrite !promise_after_app, (promise_after_no_callback pre _ Hpre).
    destruct (completed_done_resolves h2 c w s3 Hc) as [_ Hres].
    rewrite Hres. apply promise_after_settled. discriminate.
  - unfold outcome. destruct (Hmain interrupted) as (pre & s3 & Hpre & ->).
    rewrite !promise_after_app, (promise_after_no_callback pre _ Hpre).
    rewrite (interrupted_done_rejects h2 c w s3 Hc).
    apply promise_after_settled. discriminate.
  - split.
    + intros partition. eexists. reflexivity.
    + eexists. reflexivity.
Qed.

(** *** Options and names *)

(** X11.  An empty string given for directory, filename, errorTitle or
    errorMessage is treated as if the option were absent: the save path,
    the directory, the error texts and the window a listener run computes
    are those computed without it. *)
Theorem empty_string_options_count_as_absent
        (h : Host) (o : Options) (item : Item) (webContents : WebContents) :
  closure_for path_join path_extname extName_mime h o item webContents
  = closure_for path_join path_extname extName_mime h (drop_empty o)
                item webContents.
Proof.
  unfold closure_for, drop_empty, drop_empty_string, or_else. simpl.
  destruct (directory o) as [d|]; [destruct (truthy_string d) eqn:Ed|];
    destruct (filename o) as [f|]; try (destruct (truthy_string f) eqn:Ef);
    destruct (errorTitle o) as [t|]; try (destruct (truthy_string t) eqn:Et);
    destruct (errorMessage o) as [m|]; try (destruct (truthy_string m) eqn:Em);
    rewrite ?Ed, ?Ef, ?Et, ?Em; reflexivity.
Qed.

Lemma prefix_append (a b : string) : String.prefix a (a ++ b) = true.
Proof.
  induction a as [|x a IH]; simpl.
  - destruct b; reflexivity.
  - destruct (ascii_dec x x) as [_|Hne]; [exact IH | congruence].
Qed.

(** X12.  The name derived from the suggested filename on line 48 (the
    one joined to the directory and handed to unusedFilename.sync when no
    filename option is given) starts with the suggested filename, and a
    suggested filename that has an extension is derived unchanged, whatever
    the MIME type and whatever extName.mime returns for it: with no
    filename option the save path of such an item is the unused variant of
    the directory joined with the suggested filename itself. *)
Theorem save_name_keeps_suggested_filename (name mime : string) :
  String.prefix name (save_name path_extname extName_mime name mime) = true
  /\ (path_extname name <> "" ->
      save_name path_extname extName_mime name mime = name
      /\ forall h o item webContents,
           truthy_str (filename o) = false ->
           getFilename h item = name -> getMimeType h item = mime ->
           filePath (closure_for path_join path_extname extName_mime h o
                                 item webContents)
           = unusedFilename_sync h
               (path_join (or_else (directory o) (app_getPath_downloads h))
                          name)).
Proof.
  assert (Hrefl : String.prefix name name = true).
  { clear. induction name as [|x a IH]; simpl; [reflexivity|].
    destruct (ascii_dec x x) as [_|Hne]; [exact IH | congruence]. }
  split.
  - unfold save_name, getFilenameFromMime, truthy_string.
    destruct (path_extname name =? "")%string; simpl; [|exact Hrefl].
    destruct (extName_mime mime) as [|e [|e' l]];
      [exact Hrefl | apply prefix_append | exact Hrefl].
  - intros Hext.
    assert (Hs : save_name path_extname extName_mime name mime = name).
    { unfold save_name, truthy_string.
      apply String.eqb_neq in Hext. rewrite Hext. reflexivity. }
    split; [exact Hs|].
    intros h o item webContents Hf Hn Hm.
    unfold closure_for. cbn [filePath]. rewrite Hn, Hm, Hs.
    unfold truthy_str in Hf.
    destruct (filename o) as [f|]; [rewrite Hf|]; reflexivity.
Qed.

End Sequences.

(** ** The further properties at concrete inputs *)

Lemma Scenario_well_formed (h : Host) : well_formed [] [] (Scenario.events h).
Proof.
  simpl. repeat split; try (intros H; simpl in H; intuition discriminate).
  right. left. reflexivity.
Qed.

Lemma Scenario_same_totals :
  same_totals Scenario.totals (Scenario.events Demo.linux).
Proof.
  intros h e Hin i. simpl in Hin.
  destruct Hin as [H|[H|[H|[H|[]]]]]; injection H as <- _; reflexivity.
Qed.

Lemma Scenario_totals_nonneg (i : Item) : 0 <= Scenario.totals i.
Proof.
  unfold Scenario.totals. simpl. destruct i as [|[|[|i]]]; lia.
Qed.

Lemma Scenario_totals_below_2_53 :
  sum_of Scenario.totals (initially_started Demo.with_callbacks)
  + started_total Scenario.totals (Scenario.events Demo.linux) < 2 ^ 53.
Proof. reflexivity. Qed.

(** After the events of [Scenario]: 150 = 100 + 50. *)
Lemma totalBytes_is_completed_plus_active_witness :
  let s := fst (Demo.run (Scenario.events Demo.linux)
                         (state_of (Demo.registerListener Demo.linux
                                                          Demo.with_callbacks))) in
  totalBytes s = completedBytes s + sum_of Scenario.totals (downloadItems s)
  /\ totalBytes s = 150.
Proof.
  split; [|reflexivity].
  exact (proj1 (totalBytes_is_completed_plus_active
                  Demo.path_join Demo.path_extname Demo.extName_mime Demo.pupa
                  Scenario.totals Demo.linux Demo.with_callbacks
                  (Scenario.events Demo.linux)
                  Scenario_totals_nonneg
                  (fun i => eq_refl) Scenario_same_totals
                  (Scenario_well_formed Demo.linux)
                  Scenario_totals_below_2_53)).
Defined.

(** The next tick of item 2 reports 100/150. *)
Lemma aggregate_progress_within_bounds_witness :
  let s := fst (run Demo.path_join Demo.path_extname Demo.extName_mime Demo.pupa
                    (Scenario.events Demo.linux)
                    (state_of (registerListener Demo.path_join Demo.path_extname
                                 Demo.extName_mime Demo.linux
                                 Demo.with_callbacks))) in
  In (window_setProgressBar 7%nat (Quot 100 150))
     (effects_of (deliver Demo.path_join Demo.path_extname Demo.extName_mime
                          Demo.pupa Demo.linux (updated 2%nat) s))
  /\ exists n d,
       Quot 100 150 = Quot n d /\ 0 <= n <= d /\ d < 2 ^ 53
       /\ n = completedBytes s + sum_received Demo.linux (downloadItems s)
       /\ d = completedBytes s + sum_of Scenario.totals (downloadItems s).
Proof.
  intros s.
  assert (Hin : In (window_setProgressBar 7%nat (Quot 100 150))
                   (effects_of (deliver Demo.path_join Demo.path_extname
                                        Demo.extName_mime Demo.pupa Demo.linux
                                        (updated 2%nat) s))).
  { vm_compute. right. left. reflexivity. }
  split; [exact Hin|].
  assert (Hb : forall i, In i (downloadItems s) ->
                 0 <= getReceivedBytes Demo.linux i <= Scenario.totals i).
  { intros i Hi. vm_compute in Hi. destruct Hi as [<-|[]].
    vm_compute. split; discriminate. }
  exact (aggregate_progress_within_bounds
           Demo.path_join Demo.path_extname Demo.extName_mime Demo.pupa
           Scenario.totals Demo.linux Demo.linux Demo.with_callbacks
           (Scenario.events Demo.linux) 2%nat
           Scenario_totals_nonneg (fun i => eq_refl) Scenario_same_totals
           (Scenario_well_formed Demo.linux) Scenario_totals_below_2_53
           Hb 7%nat (Quot 100 150) Hin).
Defined.

(** After the events of [Scenario] the set holds item 2 only. *)
Lemma active_set_is_installed_minus_done_witness :
  let s := fst (Demo.run (Scenario.events Demo.linux)
                         (state_of (Demo.registerListener Demo.linux
                                                          Demo.with_callbacks))) in
  downloadItems s = [2%nat]
  /\ (In 2%nat (downloadItems s) <->
      In 2%nat (map c_item (handlers s))
      /\ ~ In 2%nat (done_items (Scenario.events Demo.linux))).
Proof.
  split; [reflexivity|].
  exact (proj2 (proj2 (active_set_is_installed_minus_done
                         Demo.path_join Demo.path_extname Demo.extName_mime
                         Demo.pupa Demo.linux Demo.with_callbacks
                         (Scenario.events Demo.linux)
                         (Scenario_well_formed Demo.linux)))
               2%nat).
Defined.

(** On linux with the default showBadge, the 'done' of item 1 sets the
    badge to the one item left. *)
Lemma badgeCount_is_size_of_set_witness :
  let c := Demo.closure_for Demo.linux Demo.with_callbacks 1%nat (Demo.contents 1) in
  let rd := Demo.done_handler Demo.linux completed c Demo.two_started in
  badge_enabled Demo.linux (options Demo.two_started) = true
  /\ In (app_badgeCount 1) (effects_of rd)
  /\ List.length (downloadItems (state_of rd)) = 1%nat.
Proof.
  intros c rd.
  pose proof (badgeCount_is_size_of_set Demo.path_join Demo.pupa Demo.linux
                completed c Demo.two_started) as (_ & H2 & H3).
  split; [reflexivity|].
  destruct (H3 eq_refl) as [_ Hin].
  split; [exact Hin | reflexivity].
Defined.

(** On win32 the events of [Scenario] never set the badge. *)
Lemma badgeCount_never_set_when_disabled_witness :
  none_of is_badgeCount
    (snd (Demo.run (Scenario.events Scenario.win32)
                   (state_of (Demo.registerListener Scenario.win32
                                                    Demo.with_callbacks)))).
Proof.
  apply (badgeCount_never_set_when_disabled
           Demo.path_join Demo.path_extname Demo.extName_mime Demo.pupa).
  intros h e Hin. simpl in Hin.
  destruct Hin as [H|[H|[H|[H|[]]]]]; injection H as <- _; reflexivity.
Defined.

(** With saveAs, the events of [Scenario] never set a save path. *)
Lemma saveAs_leaves_the_path_to_the_host_witness :
  none_of is_setSavePath
    (snd (Demo.run (Scenario.events Demo.linux)
                   (state_of (Demo.registerListener Demo.linux
                                                    Scenario.with_saveAs)))).
Proof.
  exact (proj1 (saveAs_leaves_the_path_to_the_host
                  Demo.path_join Demo.path_extname Demo.extName_mime Demo.pupa
                  (Scenario.events Demo.linux)
                  (state_of (Demo.registerListener Demo.linux
                                                   Scenario.with_saveAs)))
               eq_refl).
Defined.

(** Without unregisterWhenDone the registration is still listening after
    the events of [Scenario], and item 3 is tracked when it starts. *)
Lemma registration_without_unregisterWhenDone_persists_witness :
  let s := fst (Demo.run (Scenario.events Demo.linux)
                         (state_of (Demo.registerListener Demo.linux
                                                          Demo.no_options))) in
  listening s = true
  /\ In 3%nat (downloadItems
                 (state_of (Demo.deliver Demo.linux
                                         (will_download 3%nat (Demo.contents 1))
                                         s))).
Proof.
  intros s.
  pose proof (registration_without_unregisterWhenDone_persists
                Demo.path_join Demo.path_extname Demo.extName_mime Demo.pupa
                Demo.linux Demo.no_options (Scenario.events Demo.linux)
                eq_refl eq_refl) as (_ & H2 & _ & H4).
  split; [exact H2|]. exact (H4 Demo.linux 3%nat (Demo.contents 1)).
Defined.

(** A webview registration for item 1: a start of item 2 and the 'done' of
    item 1 leave the one pair of handlers and no session call. *)
Lemma webview_registration_handles_its_item_only_witness :
  let r0 := Demo.registerListener Demo.linux Scenario.with_webview in
  let tr := [(Demo.linux, will_download 2%nat (Demo.contents 1));
             (Demo.linux, done 1%nat completed)] in
  downloadItems (state_of r0) = [1%nat]
  /\ List.length (handlers (fst (Demo.run tr (state_of r0)))) = 1%nat
  /\ none_of is_session_call (snd (Demo.run tr (state_of r0))).
Proof.
  intros r0 tr.
  pose proof (webview_registration_handles_its_item_only
                Demo.path_join Demo.path_extname Demo.extName_mime Demo.pupa
                Demo.linux Scenario.with_webview
                {| wv_item := 1%nat; wv_webContents := Demo.contents 1 |}
                tr eq_refl) as (_ & (H1 & _) & (H2 & _) & (H3 & _)).
  split; [exact H1|]. split; [|exact H3].
  exact (f_equal (@List.length Closure) H2).
Defined.

(** Item 1 completes on darwin: the dock is notified of the save path, then
    the callback gets the item. *)
Lemma completed_notifies_then_calls_back_witness :
  let c := Demo.closure_for Demo.linux Demo.no_options 1%nat (Demo.contents 1) in
  let r := Demo.done_handler Scenario.darwin completed c
                             Demo.started_without_window in
  window_ c = Some 7%nat
  /\ promise_after (effects_of r) pending = resolved (Some 1%nat)
  /\ In (app_dock_downloadFinished "/home/u/Downloads/report.pdf") (effects_of r).
Proof.
  intros c r.
  pose proof (completed_notifies_then_calls_back
                Demo.path_join Demo.pupa Scenario.darwin c 7%nat
                Demo.started_without_window eq_refl) as (_ & _ & H3).
  split; [reflexivity|]. split; [exact H3|].
  vm_compute. right. right. left. reflexivity.
Defined.

(** download on a window: item 2 starts, ticks and completes, or is
    interrupted. *)
Lemma download_settles_with_the_first_item_witness :
  let s0 := state_of (Demo.registerListener Demo.linux
                        (download_options Demo.no_options)) in
  let tr state := [(Demo.linux, will_download 2%nat (Demo.contents 1));
                   (Demo.linux, updated 2%nat);
                   (Demo.linux, done 2%nat state);
                   (Demo.linux, will_download 1%nat (Demo.contents 1))] in
  promise_after (snd (Demo.run (tr completed) s0)) pending
  = resolved (Some 2%nat)
  /\ promise_after (snd (Demo.run (tr interrupted) s0)) pending
     = rejected {| message := "The download of file.zip was interrupted" |}.
Proof.
  intros s0 tr.
  pose proof (download_settles_with_the_first_item
                Demo.path_join Demo.path_extname Demo.extName_mime Demo.pupa
                Demo.linux Demo.linux Demo.linux "https://x/file.zip"
                Demo.no_options 2%nat (Demo.contents 1) 7%nat
                [(Demo.linux, updated 2%nat)]
                [(Demo.linux, will_download 1%nat (Demo.contents 1))]
                eq_refl eq_refl eq_refl) as (_ & H2 & H3 & _).
  split; [exact H2 | exact H3].
Defined.

(** "report.pdf" has an extension and is derived unchanged, even for a MIME
    type with one extension of its own. *)
Lemma save_name_keeps_suggested_filename_witness :
  Demo.path_extname "report.pdf" <> ""
  /\ save_name Demo.path_extname Demo.extName_mime "report.pdf" "application/pdf"
     = "report.pdf".
Proof.
  assert (H : Demo.path_extname "report.pdf" <> "") by (vm_compute; discriminate).
  split; [exact H|].
  exact (proj1 (proj2 (save_name_keeps_suggested_filename
                         Demo.path_join Demo.path_extname Demo.extName_mime
                         "report.pdf" "application/pdf") H)).
Defined.

(** ** The 'done' handler on an item without a window *)

(** C5 at the failing input.  Item 1 was started in web contents that no
    window owns, so window_ is null; its 'done' arrives with state
    'interrupted'.  The handler sets the badge and throws at
    window_.isDestroyed(): no error box is shown, the callback is not
    invoked and the promise of download stays pending. *)
Lemma interrupted_without_window_throws :
  let r := Demo.deliver Demo.linux (done 1%nat interrupted)
                        Scenario.tracked_without_window in
  map window_ (handlers_of 1%nat Scenario.tracked_without_window) = [None]
  /\ threw r = true
  /\ effects_of r = [app_badgeCount 0]
  /\ none_of is_showErrorBox (effects_of r)
  /\ none_of is_callback (effects_of r)
  /\ promise_after (effects_of r) pending = pending.
Proof.
  vm_compute. repeat split.
Qed.

(** C6 at the failing input.  The same item with onCancel supplied; its
    'done' arrives with state 'cancelled'.  The handler throws at
    window_.isDestroyed() and onCancel is never called. *)
Lemma cancelled_without_window_throws :
  let r := Demo.deliver Demo.linux (done 1%nat cancelled)
                        Scenario.tracked_without_window in
  map window_ (handlers_of 1%nat Scenario.tracked_without_window) = [None]
  /\ onCancel (options Scenario.tracked_without_window) = Some 3%nat
  /\ threw r = true
  /\ effects_of r = [app_badgeCount 0]
  /\ none_of is_onCancel (effects_of r).
Proof.
  vm_compute. repeat split.
Qed.

(** C8 at the failing input.  The same item on a registration without the
    webview option and with unregisterWhenDone set; its 'done' arrives, in
    any terminal state.  The handler throws at window_.isDestroyed() before
    session.removeListener: the registration is still listening, and the
    start of item 2 delivered afterwards is handled (save path set,
    onStarted called, item tracked). *)
Lemma done_without_window_keeps_listening :
  Forall
    (fun state =>
       let r := Demo.deliver Demo.linux (done 1%nat state)
                             Scenario.tracked_without_window in
       let r' := Demo.deliver Demo.linux (will_download 2%nat (Demo.contents 1))
                              (state_of r) in
       unregisters (options Scenario.tracked_without_window) = true
       /\ threw r = true
       /\ none_of is_session_call (effects_of r)
       /\ listening (state_of r) = true
       /\ effects_of r' = [item_setSavePath 2%nat "/home/u/Downloads/file.zip";
                           call_onStarted 1%nat 2%nat]
       /\ In 2%nat (downloadItems (state_of r')))
    [completed; cancelled; interrupted].
Proof.
  repeat constructor; vm_compute; left; reflexivity.
Qed.
